(** * Shopify price updater (updatePrice.py): model and verified properties

    The script reads a spreadsheet of SKUs and new prices, looks every
    SKU up in a Shopify store, writes the new price with a bounded
    number of save attempts, and logs one outcome per SKU to a CSV file.

    The model is a shallow embedding.  Python values of the spreadsheet
    are an abstract type with [str] and [isna]; the store, the
    spreadsheet reader and the session constructor are an interface
    ([Services]); side effects are threaded through a state, error and
    trace monad [M]: a computation takes the world, and gives a result
    or a raised exception, the world afterwards and the events it
    performed, in order.  The frame that [pd.read_excel] makes of the
    cells of a sheet, with its default missing values, is [read_frame]. *)

From Stdlib Require Import List String Ascii ZArith Bool Lia DecimalString.
Import ListNotations.

Local Open Scope list_scope.

(** ** Python values and exceptions *)

(** A raised exception, by the name of its class. *)
Inductive exn : Type :=
| Exception (name : string).

Inductive result (A : Type) : Type :=
| Ok (a : A)
| Raise (e : exn).

Arguments Ok {A} a.
Arguments Raise {A} e.

Definition result_bind {A B : Type} (r : result A) (f : A -> result B) : result B :=
  match r with
  | Ok a => f a
  | Raise e => Raise e
  end.

(** The values a spreadsheet cell holds once pandas has read it: [py_str]
    is Python's [str], [isna] is pandas' test for a missing value. *)
Class PyValue (Value : Type) : Type := {
  py_str : Value -> string;
  isna : Value -> bool
}.

(** [str] of a Python int. *)
Definition str_int (z : Z) : string :=
  NilZero.string_of_int (Z.to_int z).

(** [range(lo, hi)]. *)
Definition py_range (lo hi : Z) : list Z :=
  map (fun i => lo + Z.of_nat i)%Z (seq 0 (Z.to_nat (hi - lo))).

(** ** Configuration (lines 21-28) *)

Definition SHOP_URL : string := "your-shop-name.myshopify.com".
Definition API_VERSION : string := "2023-10".
Definition ACCESS_TOKEN : string := "your-admin-api-access-token".
Definition EXCEL_FILE : string := "price_updates.xlsx".
Definition SKU_COLUMN : string := "SKU".
Definition PRICE_COLUMN : string := "New Price".

(** ** Data frames *)

Section Frames.
Context {Value : Type} {PV : PyValue Value}.

(** A column, and a frame as its named columns in order.  A frame read
    from a sheet has columns of one length. *)
Definition Series : Type := list Value.
Definition DataFrame : Type := list (string * Series).

Definition notna (v : Value) : bool := negb (isna v).

(** [df[name]]: [KeyError] when the column is absent. *)
Fixpoint df_getitem (df : DataFrame) (name : string) : result Series :=
  match df with
  | [] => Raise (Exception "KeyError")
  | (n, col) :: rest => if String.eqb n name then Ok col else df_getitem rest name
  end.

Fixpoint df_columns (df : DataFrame) (names : list string) : result (list Series) :=
  match names with
  | [] => Ok []
  | n :: ns =>
      result_bind (df_getitem df n) (fun c =>
      result_bind (df_columns df ns) (fun cs => Ok (c :: cs)))
  end.

Fixpoint map2_andb (a b : list bool) : list bool :=
  match a, b with
  | x :: a', y :: b' => (x && y) :: map2_andb a' b'
  | _, _ => []
  end.

Definition nrows (df : DataFrame) : nat :=
  match df with
  | [] => 0
  | (_, col) :: _ => List.length col
  end.

(** The rows that hold a value in every one of the columns [cols]. *)
Definition complete_mask (n : nat) (cols : list Series) : list bool :=
  fold_left (fun m c => map2_andb m (map notna c)) cols (repeat true n).

(** Boolean indexing of a column. *)
Fixpoint select (mask : list bool) (col : Series) : Series :=
  match mask, col with
  | b :: mask', v :: col' => if b then v :: select mask' col' else select mask' col'
  | _, _ => []
  end.

(** [df.dropna(subset=names)]. *)
Definition dropna (subset : list string) (df : DataFrame) : result DataFrame :=
  result_bind (df_columns df subset) (fun cols =>
  let mask := complete_mask (nrows df) cols in
  Ok (map (fun nc => (fst nc, select mask (snd nc))) df)).

(** [series.astype(str)]. *)
Definition astype_str (col : Series) : list string := map py_str col.

(** *** Python dictionaries

    A [dict] keeps its keys in the order of their first insertion;
    setting a key that is present replaces its value in place. *)
Definition dict : Type := list (string * Value).

Fixpoint dict_setitem (k : string) (v : Value) (d : dict) : dict :=
  match d with
  | [] => [(k, v)]
  | (k', v') :: d' =>
      if String.eqb k' k then (k', v) :: d' else (k', v') :: dict_setitem k v d'
  end.

Fixpoint dict_get (k : string) (d : dict) : option Value :=
  match d with
  | [] => None
  | (k', v') :: d' => if String.eqb k' k then Some v' else dict_get k d'
  end.

(** [dict(pairs)]. *)
Definition py_dict (pairs : list (string * Value)) : dict :=
  fold_left (fun d kv => dict_setitem (fst kv) (snd kv) d) pairs [].

(** [d.items()] and [len(d)]. *)
Definition dict_items (d : dict) : list (string * Value) := d.
Definition dict_len (d : dict) : nat := List.length d.

(** Lines 50-51 of [read_price_updates], on the frame that
    [pd.read_excel] returned. *)
Definition price_updates_of (df : DataFrame) : result dict :=
  result_bind (dropna [SKU_COLUMN; PRICE_COLUMN] df) (fun df =>
  result_bind (df_getitem df SKU_COLUMN) (fun skus =>
  result_bind (df_getitem df PRICE_COLUMN) (fun prices =>
  Ok (py_dict (combine (astype_str skus) prices))))).
End Frames.

Arguments Series Value : clear implicits.
Arguments DataFrame Value : clear implicits.
Arguments dict Value : clear implicits.

(** ** The store, the world and the effect monad *)

(** A product variant as the script uses it: the object the store
    returned, with the attributes [sku] and [price]. *)
Record Variant : Type := {
  variant_id : Z;
  sku : string;
  price : string
}.

(** [variant.price = s]. *)
Definition set_price (s : string) (v : Variant) : Variant :=
  {| variant_id := variant_id v; sku := sku v; price := s |}.

(** A row of the log (lines 117, 120, 123). *)
Record LogEntry (Value : Type) : Type := {
  SKU : string;
  Price : Value;
  Status : string
}.

Arguments SKU {Value} _.
Arguments Price {Value} _.
Arguments Status {Value} _.

(** What the script does to the outside, and the two mutations of
    local objects that the properties speak of (the assignment to
    [variant.price] and [log_entries.append]). *)
Inductive event (Value : Type) : Type :=
| EvPrint (msg : string)
| EvActivateSession (site token : string)
| EvClearSession
| EvReadExcel (filename : string)
| EvFind (sku : string) (res : result (list Variant))
| EvSetPrice (s : string)
| EvSave (v : Variant) (res : result bool)
| EvSleep (seconds : Z)
| EvAppend (entry : LogEntry Value)
| EvToCsv (filename : string) (entries : list (LogEntry Value)).

Arguments EvPrint {Value} msg.
Arguments EvActivateSession {Value} site token.
Arguments EvClearSession {Value}.
Arguments EvReadExcel {Value} filename.
Arguments EvFind {Value} sku res.
Arguments EvSetPrice {Value} s.
Arguments EvSave {Value} v res.
Arguments EvSleep {Value} seconds.
Arguments EvAppend {Value} entry.
Arguments EvToCsv {Value} filename entries.

(** The libraries the script calls.  [Remote] is the state of the store.
    A call to the store gives a result or raises, and leaves the store in
    a new state; [Variant_save] also gives the object back as the call
    left it. *)
Class Services (Value Remote : Type) : Type := {
  shopify_Session : string -> string -> result unit;
  pd_read_excel : string -> result (DataFrame Value);
  Variant_find : string -> Remote -> result (list Variant) * Remote;
  Variant_save : Variant -> Remote -> result bool * Variant * Remote;
  run_timestamp : string
}.

Section Script.
Context {Value Remote : Type} {PV : PyValue Value} {SV : Services Value Remote}.

(** Line 28. *)
Definition LOG_FILE : string :=
  ("update_log_" ++ run_timestamp ++ ".csv")%string.

Record World : Type := {
  remote : Remote;
  session : option (string * string);
  csv_files : list (string * list (LogEntry Value))
}.

(** The world after a call to the store. *)
Definition set_remote (r : Remote) (w : World) : World :=
  {| remote := r; session := session w; csv_files := csv_files w |}.

Definition M (A : Type) : Type :=
  World -> result A * World * list (event Value).

Definition ret {A : Type} (a : A) : M A :=
  fun w => (Ok a, w, []).

Definition bind {A B : Type} (m : M A) (f : A -> M B) : M B :=
  fun w =>
    match m w with
    | (Ok a, w1, t1) =>
        match f a w1 with
        | (r, w2, t2) => (r, w2, t1 ++ t2)
        end
    | (Raise e, w1, t1) => (Raise e, w1, t1)
    end.

(** The three parts of what a computation gives. *)
Definition result_of {A : Type} (x : result A * World * list (event Value)) : result A :=
  fst (fst x).
Definition world_of {A : Type} (x : result A * World * list (event Value)) : World :=
  snd (fst x).
Definition trace_of {A : Type} (x : result A * World * list (event Value))
    : list (event Value) :=
  snd x.

Definition lift {A : Type} (r : result A) : M A :=
  fun w => (r, w, []).

Definition emit (e : event Value) : M unit :=
  fun w => (Ok tt, w, [e]).
End Script.

Arguments World Value Remote : clear implicits.
Arguments M Value Remote A : clear implicits.

Declare Scope script_scope.
Delimit Scope script_scope with script.
Notation "x <- c1 ;; c2" := (bind c1 (fun x => c2))
  (at level 61, c1 at next level, right associativity) : script_scope.
Notation "' pat <- c1 ;; c2" := (bind c1 (fun x => match x with pat => c2 end))
  (at level 61, pat pattern, c1 at next level, right associativity) : script_scope.
Notation "c1 ;; c2" := (bind c1 (fun _ => c2))
  (at level 61, right associativity) : script_scope.

Section Program.
Context {Value Remote : Type} {PV : PyValue Value} {SV : Services Value Remote}.

Local Abbreviation M := (M Value Remote).
Local Abbreviation World := (World Value Remote).
Local Open Scope script_scope.

Definition print (msg : string) : M unit := emit (EvPrint msg).

(** [time.sleep(seconds)]: it raises [ValueError] for a negative length
    and sleeps otherwise. *)
Definition time_sleep (seconds : Z) : M unit :=
  if (seconds <? 0)%Z then lift (Raise (Exception "ValueError"))
  else emit (EvSleep seconds).

(** ** Step 1: connect (lines 34-39) *)
Definition activate_session (site token : string) : M unit :=
  fun w =>
    (Ok tt,
     {| remote := remote w; session := Some (site, token); csv_files := csv_files w |},
     [EvActivateSession site token]).

Definition clear_session : M unit :=
  fun w =>
    (Ok tt,
     {| remote := remote w; session := None; csv_files := csv_files w |},
     [EvClearSession]).

Definition connect_to_shopify : M unit :=
  let site := ("https://" ++ SHOP_URL ++ "/admin/api/" ++ API_VERSION)%string in
  lift (shopify_Session site ACCESS_TOKEN) ;;
  activate_session site ACCESS_TOKEN.

(** ** Step 2: read the spreadsheet (lines 45-51) *)
Definition read_excel (filename : string) : M (DataFrame Value) :=
  emit (EvReadExcel filename) ;;
  lift (pd_read_excel filename).

Definition read_price_updates (filename : string) : M (dict Value) :=
  df <- read_excel filename ;;
  lift (price_updates_of df).

(** ** Step 3: find a variant (lines 57-65) *)
Definition find (sku : string) : M (list Variant) :=
  fun w =>
    match Variant_find sku (remote w) with
    | (res, r') =>
        (res, set_remote r' w, [EvFind sku res])
    end.

Definition find_variant_by_sku (sku : string) : M (option Variant) :=
  variants <- find sku ;;
  match variants with
  | v :: _ => ret (Some v)
  | [] => ret None
  end.

(** ** Step 4: update the price (lines 71-90) *)
Definition assign_price (variant : Variant) (s : string) : M Variant :=
  emit (EvSetPrice s) ;;
  ret (set_price s variant).

(** [variant.save()]: the answer and the object after the call. *)
Definition save (variant : Variant) : M (bool * Variant) :=
  fun w =>
    match Variant_save variant (remote w) with
    | (res, variant', r') =>
        (match res with
         | Ok success => Ok (success, variant')
         | Raise e => Raise e
         end,
         set_remote r' w,
         [EvSave variant res])
    end.

Definition attempt_failed_msg (attempt : Z) (variant : Variant) : string :=
  ("⚠️ Attempt " ++ str_int attempt ++ " failed for SKU " ++ sku variant
     ++ ". Retrying...")%string.

(** The body of the [for attempt in ...] loop, over the attempts left. *)
Fixpoint attempts_loop (attempts : list Z) (variant : Variant)
    (new_price : Value) (delay : Z) : M bool :=
  match attempts with
  | [] => ret false
  | attempt :: rest =>
      variant <- assign_price variant (py_str new_price) ;;
      ' (success, variant) <- save variant ;;
      if (success : bool) then ret true
      else
        print (attempt_failed_msg attempt variant) ;;
        time_sleep delay ;;
        attempts_loop rest variant new_price delay
  end.

Definition update_variant_price (variant : Variant) (new_price : Value)
    (retries delay : Z) : M bool :=
  attempts_loop (py_range 1 (retries + 1)) variant new_price delay.

(** The defaults of the signature, [retries=3, delay=2]. *)
Definition default_retries : Z := 3.
Definition default_delay : Z := 2.

(** ** Step 5: the main workflow (lines 96-132) *)
Definition log_append (log_entries : list (LogEntry Value)) (entry : LogEntry Value)
    : M (list (LogEntry Value)) :=
  emit (EvAppend entry) ;;
  ret (log_entries ++ [entry]).

(** Lines 110-123: the body of the loop over [updates.items()].  An
    object of the store is true as a condition, so [if variant] tests
    for [None]. *)
Definition loop_body (sku : string) (new_price : Value)
    (log_entries : list (LogEntry Value)) : M (list (LogEntry Value)) :=
  print ("Processing SKU: " ++ sku ++ " → " ++ py_str new_price)%string ;;
  variant <- find_variant_by_sku sku ;;
  match variant with
  | Some variant =>
      success <- update_variant_price variant new_price default_retries default_delay ;;
      if (success : bool) then
        print ("✅ Updated SKU " ++ sku ++ " to price " ++ py_str new_price)%string ;;
        log_append log_entries
          {| SKU := sku; Price := new_price; Status := "Updated" |}
      else
        print ("❌ Failed to update SKU " ++ sku)%string ;;
        log_append log_entries
          {| SKU := sku; Price := new_price; Status := "Failed to update" |}
  | None =>
      print ("⚠️ SKU " ++ sku ++ " not found in Shopify.")%string ;;
      log_append log_entries
        {| SKU := sku; Price := new_price; Status := "SKU not found" |}
  end.

Fixpoint for_items (items : list (string * Value))
    (log_entries : list (LogEntry Value)) : M (list (LogEntry Value)) :=
  match items with
  | [] => ret log_entries
  | (sku, new_price) :: rest =>
      log_entries <- loop_body sku new_price log_entries ;;
      for_items rest log_entries
  end.

(** [pd.DataFrame(log_entries).to_csv(LOG_FILE, index=False)]. *)
Definition to_csv (filename : string) (log_entries : list (LogEntry Value)) : M unit :=
  fun w =>
    (Ok tt,
     {| remote := remote w; session := session w;
        csv_files := (filename, log_entries) :: csv_files w |},
     [EvToCsv filename log_entries]).

Definition str_nat (n : nat) : string := str_int (Z.of_nat n).

Definition main : M unit :=
  connect_to_shopify ;;
  print "Connected to Shopify API." ;;
  updates <- read_price_updates EXCEL_FILE ;;
  print ("Loaded " ++ str_nat (dict_len updates) ++ " price updates from Excel.")%string ;;
  log_entries <- for_items (dict_items updates) [] ;;
  to_csv LOG_FILE log_entries ;;
  print (String "010" "📄 Log file saved as: " ++ LOG_FILE)%string ;;
  clear_session ;;
  print "Finished updating prices.".
End Program.

(** ** The two fatal steps of [main], as the libraries answer them *)

Section Setup.
Context {Value Remote : Type} {PV : PyValue Value} {SV : Services Value Remote}.

Definition site_url : string :=
  ("https://" ++ SHOP_URL ++ "/admin/api/" ++ API_VERSION)%string.

(** What session setup gives: [shopify.Session(...)] on line 38. *)
Definition session_result : result unit :=
  shopify_Session site_url ACCESS_TOKEN.

(** What file loading gives: [read_price_updates(EXCEL_FILE)]. *)
Definition load_result : result (dict Value) :=
  result_bind (pd_read_excel EXCEL_FILE) price_updates_of.

(** The world once the session is active. *)
Definition activated (w : World Value Remote) : World Value Remote :=
  {| remote := remote w; session := Some (site_url, ACCESS_TOKEN);
     csv_files := csv_files w |}.

(** The world once the log is written and the session cleared. *)
Definition finished (log : list (LogEntry Value)) (w : World Value Remote)
    : World Value Remote :=
  {| remote := remote w; session := None;
     csv_files := (LOG_FILE, log) :: csv_files w |}.
End Setup.

(** ** Reading a trace and a frame *)

Section Traces.
Context {Value : Type}.

(** The save attempts of a trace: the object sent and the answer. *)
Fixpoint saves (t : list (event Value)) : list (Variant * result bool) :=
  match t with
  | [] => []
  | EvSave v res :: t' => (v, res) :: saves t'
  | _ :: t' => saves t'
  end.

(** The delays of a trace, in seconds. *)
Fixpoint sleeps (t : list (event Value)) : list Z :=
  match t with
  | [] => []
  | EvSleep d :: t' => d :: sleeps t'
  | _ :: t' => sleeps t'
  end.

(** The strings assigned to [variant.price]. *)
Fixpoint assignments (t : list (event Value)) : list string :=
  match t with
  | [] => []
  | EvSetPrice s :: t' => s :: assignments t'
  | _ :: t' => assignments t'
  end.

(** The SKUs looked up. *)
Fixpoint lookups (t : list (event Value)) : list string :=
  match t with
  | [] => []
  | EvFind k _ :: t' => k :: lookups t'
  | _ :: t' => lookups t'
  end.

(** The outcomes appended to [log_entries]. *)
Fixpoint appended (t : list (event Value)) : list (LogEntry Value) :=
  match t with
  | [] => []
  | EvAppend e :: t' => e :: appended t'
  | _ :: t' => appended t'
  end.

(** The exceptions the store raised. *)
Fixpoint remote_errors (t : list (event Value)) : list exn :=
  match t with
  | [] => []
  | EvFind _ (Raise e) :: t' => e :: remote_errors t'
  | EvSave _ (Raise e) :: t' => e :: remote_errors t'
  | _ :: t' => remote_errors t'
  end.

(** The log files written. *)
Fixpoint written (t : list (event Value)) : list (string * list (LogEntry Value)) :=
  match t with
  | [] => []
  | EvToCsv f es :: t' => (f, es) :: written t'
  | _ :: t' => written t'
  end.

(** The three statuses of the log. *)
Definition is_status (s : string) : Prop :=
  s = "Updated"%string \/ s = "Failed to update"%string \/ s = "SKU not found"%string.

(** The rows of a frame in two of its columns. *)
Definition stringified {PV : PyValue Value} (rows : list (Value * Value))
    : list (string * Value) :=
  map (fun r => (py_str (fst r), snd r)) rows.

Definition complete_row {PV : PyValue Value} (r : Value * Value) : bool :=
  notna (fst r) && notna (snd r).

(** Every column of the frame has as many cells as the frame has rows. *)
Definition well_formed (df : DataFrame Value) : Prop :=
  forall n col, In (n, col) df -> List.length col = nrows df.

(** The value of the last pair with key [k]. *)
Definition last_value (k : string) (pairs : list (string * Value)) : option Value :=
  fold_left (fun acc kv => if String.eqb (fst kv) k then Some (snd kv) else acc)
    pairs None.
End Traces.

(** ** The reader: from the cells of a sheet to a frame *)

(** A cell of a worksheet as the reader finds it: blank, a text, or
    another value (a number, a date, a truth value). *)
Inductive cell (Value : Type) : Type :=
| Blank
| Text (s : string)
| Other (v : Value).

Arguments Blank {Value}.
Arguments Text {Value} s.
Arguments Other {Value} v.

(** The texts that [pd.read_excel] reads as a missing value when it is
    called with its defaults, as on line 49; the empty text is one. *)
Definition STR_NA_VALUES : list string :=
  [""; "#N/A"; "#N/A N/A"; "#NA"; "-1.#IND"; "-1.#QNAN"; "-NaN"; "-nan";
   "1.#IND"; "1.#QNAN"; "<NA>"; "N/A"; "NA"; "NULL"; "NaN"; "None"; "n/a";
   "nan"; "null"]%string.

(** What the reader makes its values of: the missing value, a text, and
    the conversion of a column to the type inferred for it (a column of
    whole numbers with a missing value becomes a column of floats). *)
Class Reader (Value : Type) : Type := {
  py_nan : Value;
  py_text : string -> Value;
  infer_dtype : list Value -> list Value
}.

Section Reading.
Context {Value : Type} {PV : PyValue Value} {RD : Reader Value}.

Definition is_na_text (s : string) : bool :=
  existsb (String.eqb s) STR_NA_VALUES.

(** The value read from a cell, before the type of its column is
    inferred. *)
Definition read_cell (c : cell Value) : Value :=
  match c with
  | Blank => py_nan
  | Text s => if is_na_text s then py_nan else py_text s
  | Other v => v
  end.

(** The cells that are read as a missing value. *)
Definition missing_cell (c : cell Value) : bool :=
  match c with
  | Blank => true
  | Text s => is_na_text s
  | Other v => isna v
  end.

(** A sheet: its named columns, below the header row. *)
Definition Sheet : Type := list (string * list (cell Value)).

Definition read_column (col : list (cell Value)) : Series Value :=
  infer_dtype (map read_cell col).

(** The frame that [pd.read_excel] makes of a sheet. *)
Definition read_frame (sheet : Sheet) : DataFrame Value :=
  map (fun nc => (fst nc, read_column (snd nc))) sheet.

Fixpoint sheet_column (sheet : Sheet) (name : string) : option (list (cell Value)) :=
  match sheet with
  | [] => None
  | (n, col) :: rest => if String.eqb n name then Some col else sheet_column rest name
  end.

(** Every column of the sheet has as many cells as the first. *)
Definition rectangular (sheet : Sheet) : Prop :=
  forall n col, In (n, col) sheet ->
    List.length col = match sheet with
                      | [] => 0%nat
                      | (_, first) :: _ => List.length first
                      end.

(** What the properties need of the values of the reader: the missing
    value is missing, a text is not, and the conversion of a column
    keeps the missing values missing and the others not. *)
Definition reader_keeps_missing : Prop :=
  isna py_nan = true
  /\ (forall s, isna (py_text s) = false)
  /\ (forall col, map isna (infer_dtype col) = map isna col).
End Reading.

Arguments Sheet Value : clear implicits.

(** ** Counting in a trace, and the order of the keys of a mapping *)

Section Counting.
Context {Value : Type}.

(** The saves that reported success. *)
Definition successful (l : list (Variant * result bool)) : list (Variant * result bool) :=
  filter (fun va => match snd va with Ok true => true | _ => false end) l.

(** The outcomes with the status "Updated". *)
Definition updated (log : list (LogEntry Value)) : list (LogEntry Value) :=
  filter (fun e => String.eqb (Status e) "Updated") log.

(** The saves of a trace up to its next lookup. *)
Fixpoint saves_until_find (t : list (event Value)) : nat :=
  match t with
  | [] => 0
  | EvFind _ _ :: _ => 0
  | EvSave _ _ :: t' => S (saves_until_find t')
  | _ :: t' => saves_until_find t'
  end.

(** For every lookup of a trace, in order, the number of saves between
    it and the next lookup (or the end). *)
Fixpoint saves_per_lookup (t : list (event Value)) : list nat :=
  match t with
  | [] => []
  | EvFind _ _ :: t' => saves_until_find t' :: saves_per_lookup t'
  | _ :: t' => saves_per_lookup t'
  end.
End Counting.

(** The keys of a list, each once, in the order of their first
    occurrence. *)
Fixpoint first_occurrences (keys : list string) : list string :=
  match keys with
  | [] => []
  | k :: ks => k :: filter (fun k' => negb (String.eqb k k')) (first_occurrences ks)
  end.

(** ** The shape of a run of the retry loop

    [loop_run s d n res t]: with [n] attempts left, price string [s] and
    delay [d], the loop ends with [res] after the events [t]. *)
Inductive loop_run {Value : Type} (s : string) (d : Z)
  : nat -> result bool -> list (event Value) -> Prop :=
| run_exhausted :
    loop_run s d 0 (Ok false) []
| run_success n v :
    price v = s ->
    loop_run s d (S n) (Ok true) [EvSetPrice s; EvSave v (Ok true)]
| run_raise n v e :
    price v = s ->
    loop_run s d (S n) (Raise e) [EvSetPrice s; EvSave v (Raise e)]
| run_sleep_error n v msg :
    price v = s ->
    (d < 0)%Z ->
    loop_run s d (S n) (Raise (Exception "ValueError"))
      [EvSetPrice s; EvSave v (Ok false); EvPrint msg]
| run_retry n v msg res t :
    price v = s ->
    (0 <= d)%Z ->
    loop_run s d n res t ->
    loop_run s d (S n) res
      (EvSetPrice s :: EvSave v (Ok false) :: EvPrint msg :: EvSleep d :: t).

(** ** A concrete store, for examples *)

Module Demo.

(** [PFloat z] is the float of the whole number [z]; its [str] ends
    in ".0" (for a number of fewer than 17 digits). *)
Inductive pyval : Type :=
| PNaN
| PInt (z : Z)
| PFloat (z : Z)
| PStr (s : string).

#[export] Instance pyval_PyValue : PyValue pyval := {
  py_str v := match v with
              | PNaN => "nan"%string
              | PInt z => str_int z
              | PFloat z => (str_int z ++ ".0")%string
              | PStr s => s
              end;
  isna v := match v with PNaN => true | _ => false end
}.

Definition to_float (v : pyval) : pyval :=
  match v with
  | PInt z => PFloat z
  | _ => v
  end.

(** A column without a text that holds a missing value or a float. *)
Definition float_column (col : list pyval) : bool :=
  forallb (fun v => match v with PStr _ => false | _ => true end) col
  && existsb (fun v => match v with PNaN | PFloat _ => true | _ => false end) col.

#[export] Instance pyval_Reader : Reader pyval := {
  py_nan := PNaN;
  py_text := PStr;
  infer_dtype col := if float_column col then map to_float col else col
}.

(** A store that answers from a script: the variants it holds, the
    answers to the coming saves (once they are used up, a save
    succeeds), and the SKUs whose lookup raises. *)
Record Store : Type := {
  catalog : list Variant;
  save_answers : list (result bool);
  broken_skus : list string
}.

Definition store_find (k : string) (st : Store) : result (list Variant) * Store :=
  if existsb (String.eqb k) (broken_skus st)
  then (Raise (Exception "ConnectionError"), st)
  else (Ok (filter (fun v => String.eqb (sku v) k) (catalog st)), st).

Definition store_put (v : Variant) (vs : list Variant) : list Variant :=
  map (fun v' => if Z.eqb (variant_id v') (variant_id v) then v else v') vs.

Definition store_save (v : Variant) (st : Store) : result bool * Variant * Store :=
  match save_answers st with
  | [] =>
      (Ok true, v,
       {| catalog := store_put v (catalog st); save_answers := [];
          broken_skus := broken_skus st |})
  | Ok true :: rest =>
      (Ok true, v,
       {| catalog := store_put v (catalog st); save_answers := rest;
          broken_skus := broken_skus st |})
  | res :: rest =>
      (res, set_price "stale" v,
       {| catalog := catalog st; save_answers := rest;
          broken_skus := broken_skus st |})
  end.

Definition services (session_res : result unit) (sheet : result (DataFrame pyval))
    : Services pyval Store := {|
  shopify_Session := fun _ _ => session_res;
  pd_read_excel := fun _ => sheet;
  Variant_find := store_find;
  Variant_save := store_save;
  run_timestamp := "20240101_120000"
|}.

Definition world (st : Store) : World pyval Store :=
  {| remote := st; session := None; csv_files := [] |}.

Definition widget : Variant :=
  {| variant_id := 1; sku := "A"; price := "9" |}.
Definition gadget : Variant :=
  {| variant_id := 2; sku := "B"; price := "5" |}.

Definition store (answers : list (result bool)) (broken : list string) : Store :=
  {| catalog := [widget; gadget]; save_answers := answers; broken_skus := broken |}.

Definition sheet (skus prices : list pyval) : DataFrame pyval :=
  [("SKU"%string, skus); ("New Price"%string, prices)].

Definition sheet_three : DataFrame pyval :=
  sheet [PStr "A"; PStr "Z"; PStr "B"] [PInt 10; PInt 20; PInt 7].

(** The libraries of a run where session setup and file loading work,
    of one where the session cannot be set up, and of one where the
    file is missing. *)
Definition svc : Services pyval Store :=
  services (Ok tt) (Ok sheet_three).
Definition svc_no_session : Services pyval Store :=
  services (Raise (Exception "ValidationException")) (Ok sheet_three).
Definition svc_no_file : Services pyval Store :=
  services (Ok tt) (Raise (Exception "FileNotFoundError")).

(** The rows of the loader example, [A, 10], ["", 20] and [B, null], as
    cells of a sheet and as the frame read from it. *)
Definition raw_spec : Sheet pyval :=
  [("SKU"%string, [Text "A"; Text ""; Text "B"]);
   ("New Price"%string, [Other (PInt 10); Other (PInt 20); Blank])].
Definition sheet_spec : DataFrame pyval := read_frame raw_spec.

(** SKU "A" twice, the second time without a price. *)
Definition raw_dup : Sheet pyval :=
  [("SKU"%string, [Text "A"; Text "A"]);
   ("New Price"%string, [Other (PInt 10); Blank])].
Definition sheet_dup : DataFrame pyval := read_frame raw_dup.

(** SKU "A" twice, with a price both times. *)
Definition sheet_twice : DataFrame pyval :=
  sheet [PStr "A"; PStr "A"] [PInt 10; PInt 12].

Definition svc_spec : Services pyval Store := services (Ok tt) (Ok sheet_spec).
Definition svc_dup : Services pyval Store := services (Ok tt) (Ok sheet_dup).

(** A variant whose price is already the new one. *)
Definition widget_priced : Variant :=
  {| variant_id := 1; sku := "A"; price := "10" |}.

Definition connection_error : exn := Exception "ConnectionError".

(** Calls of the updater on [widget] with the new price 10: every save
    fails; the second save succeeds; no attempt allowed. *)
Definition failing_run : result bool * World pyval Store * list (event pyval) :=
  update_variant_price (SV := svc) widget (PInt 10) 3 2
    (world (store [Ok false; Ok false; Ok false] [])).


(** Runs of the script on the three rows A, Z, B: the store answers
    every call; the lookup of Z raises; the save of B raises. *)
Definition good_run : result unit * World pyval Store * list (event pyval) :=
  main (SV := svc) (world (store [Ok false; Ok true] [])).

Definition lookup_error_run : result unit * World pyval Store * list (event pyval) :=
  main (SV := svc) (world (store [] ["Z"%string])).

Definition save_error_run : result unit * World pyval Store * list (event pyval) :=
  main (SV := svc) (world (store [Ok true; Raise connection_error] [])).

(** A sheet without the price column, and one where no row has both
    values. *)
Definition sheet_no_price : DataFrame pyval :=
  [("SKU"%string, [PStr "A"; PStr "B"])].
Definition sheet_blank : DataFrame pyval :=
  sheet [PStr "A"; PNaN] [PNaN; PFloat 20].

Definition svc_no_price : Services pyval Store := services (Ok tt) (Ok sheet_no_price).
Definition svc_blank : Services pyval Store := services (Ok tt) (Ok sheet_blank).
Definition svc_twice : Services pyval Store := services (Ok tt) (Ok sheet_twice).

(** Identifier B before A and once more after it; and two identifiers
    the store does not hold. *)
Definition sheet_order : DataFrame pyval :=
  sheet [PStr "B"; PStr "A"; PStr "B"] [PInt 1; PInt 2; PInt 3].
Definition sheet_unknown : DataFrame pyval :=
  sheet [PStr "Y"; PStr "Z"] [PInt 1; PInt 2].

Definition svc_order : Services pyval Store := services (Ok tt) (Ok sheet_order).
Definition svc_unknown : Services pyval Store := services (Ok tt) (Ok sheet_unknown).

Definition unknown_run : result unit * World pyval Store * list (event pyval) :=
  main (SV := svc_unknown) (world (store [] [])).

(** A call of the updater whose second save raises. *)
Definition raising_run : result bool * World pyval Store * list (event pyval) :=
  update_variant_price (SV := svc) widget (PInt 10) 3 2
    (world (store [Ok false; Raise connection_error] [])).

End Demo.

(** * Properties *)

(** ** Traces and the monad *)

Section TraceFacts.
Context {Value : Type}.
Implicit Types t : list (event Value).

Lemma saves_app t1 t2 : saves (t1 ++ t2) = saves t1 ++ saves t2.
Proof.
  induction t1 as [|e t1 IH]; simpl; [reflexivity|].
  destruct e; simpl; rewrite ?IH; reflexivity.
Qed.

Lemma sleeps_app t1 t2 : sleeps (t1 ++ t2) = sleeps t1 ++ sleeps t2.
Proof.
  induction t1 as [|e t1 IH]; simpl; [reflexivity|].
  destruct e; simpl; rewrite ?IH; reflexivity.
Qed.

Lemma lookups_app t1 t2 : lookups (t1 ++ t2) = lookups t1 ++ lookups t2.
Proof.
  induction t1 as [|e t1 IH]; simpl; [reflexivity|].
  destruct e; simpl; rewrite ?IH; reflexivity.
Qed.

Lemma appended_app t1 t2 : appended (t1 ++ t2) = appended t1 ++ appended t2.
Proof.
  induction t1 as [|e t1 IH]; simpl; [reflexivity|].
  destruct e; simpl; rewrite ?IH; reflexivity.
Qed.

Lemma written_app t1 t2 : written (t1 ++ t2) = written t1 ++ written t2.
Proof.
  induction t1 as [|e t1 IH]; simpl; [reflexivity|].
  destruct e; simpl; rewrite ?IH; reflexivity.
Qed.

Lemma remote_errors_app t1 t2 :
  remote_errors (t1 ++ t2) = remote_errors t1 ++ remote_errors t2.
Proof.
  induction t1 as [|e t1 IH]; simpl; [reflexivity|].
  destruct e as [ | | | |k [vs|x]| |v [b|x]| | | ]; simpl; rewrite ?IH; reflexivity.
Qed.
End TraceFacts.

Section MonadFacts.
Context {Value Remote : Type}.

Local Abbreviation M := (M Value Remote).
Local Abbreviation World := (World Value Remote).

(** A sequence ends in its first part when that raises, and otherwise
    runs the second part from the world the first one left. *)
Lemma bind_inv {A B : Type} (m : M A) (f : A -> M B) (w : World) res w' t :
  bind m f w = (res, w', t) ->
  (exists e, m w = (Raise e, w', t) /\ res = Raise e) \/
  (exists a w1 t1 t2,
      m w = (Ok a, w1, t1) /\ f a w1 = (res, w', t2) /\ t = t1 ++ t2).
Proof.
  unfold bind. destruct (m w) as [[[a|e] w1] t1].
  - destruct (f a w1) as [[r w2] t2] eqn:Ef. intros E. inversion E; subst.
    right. exists a, w1, t1, t2. auto.
  - intros E. inversion E; subst. left. exists e. auto.
Qed.

Lemma bind_ok {A B : Type} (m : M A) (f : A -> M B) (w : World) a w1 t1 :
  m w = (Ok a, w1, t1) ->
  bind m f w = (let '(r, w2, t2) := f a w1 in (r, w2, t1 ++ t2)).
Proof. unfold bind. intros ->. destruct (f a w1) as [[r w2] t2]. reflexivity. Qed.

Lemma bind_raise {A B : Type} (m : M A) (f : A -> M B) (w : World) e w1 t1 :
  m w = (Raise e, w1, t1) ->
  bind m f w = (Raise e, w1, t1).
Proof. unfold bind. intros ->. reflexivity. Qed.
End MonadFacts.

(** ** The retry loop *)

Section UpdaterFacts.
Context {Value Remote : Type} {PV : PyValue Value} {SV : Services Value Remote}.

Local Abbreviation M := (M Value Remote).
Local Abbreviation World := (World Value Remote).

Lemma py_range_length lo hi : List.length (py_range lo hi) = Z.to_nat (hi - lo).
Proof. unfold py_range. rewrite length_map, length_seq. reflexivity. Qed.

Lemma attempts_length retries :
  List.length (py_range 1 (retries + 1)) = Z.to_nat retries.
Proof. rewrite py_range_length. f_equal. lia. Qed.

Lemma py_range_empty lo hi : (hi <= lo)%Z -> py_range lo hi = [].
Proof.
  intros Hle. unfold py_range.
  replace (Z.to_nat (hi - lo)) with 0%nat by lia. reflexivity.
Qed.

(** One turn of the loop, by the answer of the store and the sign of
    the delay. *)
Lemma attempts_loop_cons attempt rest (v : Variant) (p : Value) d (w : World) :
  attempts_loop (attempt :: rest) v p d w =
  match Variant_save (set_price (py_str p) v) (remote w) with
  | (Ok true, _, r') =>
      (Ok true, set_remote r' w,
       [EvSetPrice (py_str p); EvSave (set_price (py_str p) v) (Ok true)])
  | (Ok false, v', r') =>
      if (d <? 0)%Z then
        (Raise (Exception "ValueError"), set_remote r' w,
         [EvSetPrice (py_str p); EvSave (set_price (py_str p) v) (Ok false);
          EvPrint (attempt_failed_msg attempt v')])
      else
        let '(res, w2, t) := attempts_loop rest v' p d (set_remote r' w) in
        (res, w2,
         EvSetPrice (py_str p) :: EvSave (set_price (py_str p) v) (Ok false)
           :: EvPrint (attempt_failed_msg attempt v') :: EvSleep d :: t)
  | (Raise e, _, r') =>
      (Raise e, set_remote r' w,
       [EvSetPrice (py_str p); EvSave (set_price (py_str p) v) (Raise e)])
  end.
Proof.
  cbn [attempts_loop].
  unfold bind, assign_price, save, emit, ret, print, time_sleep, lift.
  cbn. destruct (Variant_save (set_price (py_str p) v) (remote w)) as [[[[|]|e] v'] r'].
  - reflexivity.
  - cbn. destruct (d <? 0)%Z; [reflexivity|].
    cbn. destruct (attempts_loop rest v' p d (set_remote r' w)) as [[res w2] t].
    reflexivity.
  - reflexivity.
Qed.

Lemma attempts_loop_run attempts : forall (v : Variant) (p : Value) d (w : World) res w' t,
  attempts_loop attempts v p d w = (res, w', t) ->
  loop_run (py_str p) d (List.length attempts) res t.
Proof.
  induction attempts as [|a rest IH]; intros v p d w res w' t E.
  - cbn in E. unfold ret in E. inversion E; subst. constructor.
  - rewrite attempts_loop_cons in E.
    destruct (Variant_save (set_price (py_str p) v) (remote w)) as [[[[|]|e] v'] r'].
    + inversion E; subst. now constructor.
    + destruct (d <? 0)%Z eqn:Ed.
      * inversion E; subst. apply run_sleep_error; [reflexivity|lia].
      * destruct (attempts_loop rest v' p d (set_remote r' w)) as [[res2 w2] t2] eqn:E2.
        inversion E; subst. apply run_retry; [reflexivity|lia|]. eapply IH; eassumption.
    + inversion E; subst. now constructor.
Qed.

(** The world changes in the store only. *)
Lemma attempts_loop_world attempts : forall (v : Variant) (p : Value) d (w : World) res w' t,
  attempts_loop attempts v p d w = (res, w', t) ->
  session w' = session w /\ csv_files w' = csv_files w.
Proof.
  induction attempts as [|a rest IH]; intros v p d w res w' t E.
  - cbn in E. unfold ret in E. inversion E; subst. auto.
  - rewrite attempts_loop_cons in E.
    destruct (Variant_save (set_price (py_str p) v) (remote w)) as [[[[|]|e] v'] r'].
    + inversion E; subst. auto.
    + destruct (d <? 0)%Z.
      * inversion E; subst. auto.
      * destruct (attempts_loop rest v' p d (set_remote r' w)) as [[res2 w2] t2] eqn:E2.
        inversion E; subst. apply IH in E2. exact E2.
    + inversion E; subst. auto.
Qed.

(** The answer recorded with a save is the answer of the store to that
    object in some state. *)
Lemma attempts_loop_answers attempts : forall (v : Variant) (p : Value) d (w : World) res w' t,
  attempts_loop attempts v p d w = (res, w', t) ->
  forall v' a, In (v', a) (saves t) -> exists r, a = fst (fst (Variant_save v' r)).
Proof.
  induction attempts as [|a0 rest IH]; intros v p d w res w' t E v' a Hin.
  - cbn in E. unfold ret in E. inversion E; subst. destruct Hin.
  - rewrite attempts_loop_cons in E.
    destruct (Variant_save (set_price (py_str p) v) (remote w)) as [[ans v1] r1] eqn:Es.
    assert (Hfirst : (v', a) = (set_price (py_str p) v, ans) ->
                     exists r, a = fst (fst (Variant_save v' r))).
    { intros Heq. inversion Heq; subst. exists (remote w). now rewrite Es. }
    destruct ans as [[|]|e].
    + inversion E; subst. destruct Hin as [Hin|[]]. symmetry in Hin. auto.
    + destruct (d <? 0)%Z.
      * inversion E; subst. destruct Hin as [Hin|[]]. symmetry in Hin. auto.
      * destruct (attempts_loop rest v1 p d (set_remote r1 w)) as [[res2 w2] t2] eqn:E2.
        inversion E; subst. destruct Hin as [Hin|Hin].
        -- symmetry in Hin. auto.
        -- eapply IH; eassumption.
    + inversion E; subst. destruct Hin as [Hin|[]]. symmetry in Hin. auto.
Qed.

Lemma update_variant_price_run (v : Variant) (p : Value) retries d (w : World) res w' t :
  update_variant_price v p retries d w = (res, w', t) ->
  loop_run (py_str p) d (Z.to_nat retries) res t.
Proof.
  unfold update_variant_price. intros E. apply attempts_loop_run in E.
  now rewrite attempts_length in E.
Qed.
End UpdaterFacts.

(** ** What a run of the loop looks like *)

Section LoopRunFacts.
Context {Value : Type}.
Variables (s : string) (d : Z).
Implicit Types t : list (event Value).

(** Every attempt reported failure, with a delay that is not negative:
    the loop used all its attempts and slept after each of them. *)
Lemma loop_run_all_fail n res t :
  (0 <= d)%Z ->
  loop_run s d n res t ->
  (forall v a, In (v, a) (saves t) -> a = Ok false) ->
  res = Ok false /\ List.length (saves t) = n /\ sleeps t = repeat d n
  /\ assignments t = repeat s n.
Proof.
  intros Hd.
  induction 1 as [|n v Hv|n v e Hv|n v msg Hv Hneg|n v msg res t Hv _ Hrun IH];
    intros Hall.
  - auto.
  - specialize (Hall v (Ok true) (or_introl eq_refl)). discriminate.
  - specialize (Hall v (Raise e) (or_introl eq_refl)). discriminate.
  - lia.
  - destruct IH as (-> & Hlen & Hsl & Has).
    + intros v' a Hin. apply (Hall v' a). right. exact Hin.
    + cbn. rewrite Hlen, Hsl, Has. auto.
Qed.

(** And then the last thing the loop did is sleep, after its last save. *)
Lemma loop_run_all_fail_last n res t :
  (0 <= d)%Z ->
  loop_run s d n res t ->
  (forall v a, In (v, a) (saves t) -> a = Ok false) ->
  (1 <= n)%nat ->
  exists t0 v msg, t = t0 ++ [EvSave v (Ok false); EvPrint msg; EvSleep d].
Proof.
  intros Hd.
  induction 1 as [|n v Hv|n v e Hv|n v msg Hv Hneg|n v msg res t Hv _ Hrun IH];
    intros Hall Hn.
  - lia.
  - specialize (Hall v (Ok true) (or_introl eq_refl)). discriminate.
  - specialize (Hall v (Raise e) (or_introl eq_refl)). discriminate.
  - lia.
  - assert (Hall' : forall v' a, In (v', a) (saves t) -> a = Ok false).
    { intros v' a Hin. apply (Hall v' a). right. exact Hin. }
    destruct n as [|n].
    + inversion Hrun; subst. exists [EvSetPrice (price v)], v, msg. reflexivity.
    + destruct (IH Hall') as (t0 & v' & msg' & ->); [lia|].
      exists (EvSetPrice s :: EvSave v (Ok false) :: EvPrint msg :: EvSleep d :: t0),
        v', msg'.
      reflexivity.
Qed.

(** A save that reports success ends the loop with [True]. *)
Lemma loop_run_success n res t v :
  loop_run s d n res t ->
  In (v, Ok true) (saves t) ->
  res = Ok true.
Proof.
  induction 1 as [|n v0 Hv|n v0 e Hv|n v0 msg Hv Hneg|n v0 msg res t Hv _ Hrun IH];
    cbn; intros Hin.
  - contradiction.
  - reflexivity.
  - destruct Hin as [Hin|[]]. discriminate.
  - destruct Hin as [Hin|[]]. discriminate.
  - destruct Hin as [Hin|Hin]; [discriminate|]. auto.
Qed.



(** Every save sends the price string, assigned just before it. *)
Lemma loop_run_assigned n res t :
  loop_run s d n res t ->
  forall t1 v a t2, t = t1 ++ EvSave v a :: t2 ->
  price v = s /\ exists t0, t1 = t0 ++ [EvSetPrice s].
Proof.
  induction 1 as [|n v0 Hv|n v0 e Hv|n v0 msg Hv Hneg|n v0 msg res t Hv _ Hrun IH];
    intros t1 v a t2 E.
  - destruct t1; discriminate.
  - destruct t1 as [|x [|y t1]]; try discriminate.
    + inversion E; subst. split; [reflexivity|]. exists []. reflexivity.
    + inversion E. destruct t1; discriminate.
  - destruct t1 as [|x [|y t1]]; try discriminate.
    + inversion E; subst. split; [reflexivity|]. exists []. reflexivity.
    + inversion E. destruct t1; discriminate.
  - destruct t1 as [|x [|y [|z t1]]]; try discriminate.
    + inversion E; subst. split; [reflexivity|]. exists []. reflexivity.
    + inversion E. destruct t1; discriminate.
  - destruct t1 as [|x [|y [|z [|u t1]]]]; try discriminate.
    + inversion E; subst. split; [reflexivity|]. exists []. reflexivity.
    + inversion E; subst. destruct (IH t1 v a t2 eq_refl) as (Hp & t0 & ->).
      split; [exact Hp|].
      exists (EvSetPrice (price v0) :: EvSave v0 (Ok false) :: EvPrint msg
                :: EvSleep d :: t0).
      reflexivity.
Qed.

(** At most [n] saves, and as many assignments as saves. *)
Lemma loop_run_bound n res t :
  loop_run s d n res t ->
  (List.length (saves t) <= n)%nat /\ assignments t = repeat s (List.length (saves t)).
Proof.
  induction 1 as [|n v Hv|n v e Hv|n v msg Hv Hneg|n v msg res t Hv _ Hrun [IH1 IH2]];
    cbn.
  - auto.
  - split; [lia|reflexivity].
  - split; [lia|reflexivity].
  - split; [lia|reflexivity].
  - rewrite IH2. split; [lia|reflexivity].
Qed.

(** The loop looks nothing up, records no outcome and writes no file. *)
Lemma loop_run_quiet n res t :
  loop_run s d n res t ->
  lookups t = [] /\ appended t = [] /\ written t = [].
Proof. induction 1; cbn; auto. Qed.

(** With a delay that is not negative, the loop raises exactly when a
    save raises, and that save is its last event. *)
Lemma loop_run_raise n e t :
  (0 <= d)%Z ->
  loop_run s d n (Raise e) t ->
  remote_errors t = [e] /\ exists t0 v, t = t0 ++ [EvSave v (Raise e)].
Proof.
  intros Hd. remember (Raise e) as res eqn:Hres.
  induction 1 as [|n v Hv|n v e' Hv|n v msg Hv Hneg|n v msg res t Hv _ Hrun IH].
  - discriminate.
  - discriminate.
  - inversion Hres; subst. split; [reflexivity|]. exists [EvSetPrice (price v)], v.
    reflexivity.
  - lia.
  - destruct (IH Hres) as (He & t0 & v' & ->). split; [exact He|].
    exists (EvSetPrice s :: EvSave v (Ok false) :: EvPrint msg :: EvSleep d :: t0), v'.
    reflexivity.
Qed.

Lemma loop_run_no_error n res t :
  (0 <= d)%Z ->
  loop_run s d n res t ->
  remote_errors t = [] ->
  exists b, res = Ok b.
Proof.
  intros Hd Hrun Hno. destruct res as [b|e]; [eauto|].
  apply loop_run_raise in Hrun; [|exact Hd]. destruct Hrun as [He _]. congruence.
Qed.

Lemma loop_run_ok_no_error n b t :
  loop_run s d n (Ok b) t -> remote_errors t = [].
Proof.
  remember (Ok b) as res eqn:Hres.
  induction 1; cbn; auto; discriminate.
Qed.

(** The loop returns [False] only when every save reported failure. *)
Lemma loop_run_false n t :
  loop_run s d n (Ok false) t ->
  forall v a, In (v, a) (saves t) -> a = Ok false.
Proof.
  remember (Ok false) as res eqn:Hres.
  induction 1 as [|n v Hv|n v e Hv|n v msg Hv Hneg|n v msg res t Hv _ Hrun IH];
    cbn; intros v' a Hin.
  - contradiction.
  - discriminate.
  - discriminate.
  - discriminate.
  - destruct Hin as [Hin|Hin]; [congruence|]. eapply IH; eauto.
Qed.
End LoopRunFacts.

(** ** The loop over the rows and [main] *)

Section MainFacts.
Context {Value Remote : Type} {PV : PyValue Value} {SV : Services Value Remote}.

Local Abbreviation M := (M Value Remote).
Local Abbreviation World := (World Value Remote).
Local Abbreviation outcome k p st := {| SKU := k; Price := p; Status := st |}.

Local Open Scope string_scope.

Lemma default_delay_nonneg : (0 <= default_delay)%Z.
Proof. unfold default_delay. lia. Qed.

(** The body of the row loop, by the answers of the store. *)
Lemma loop_body_eq k (p : Value) log (w : World) :
  loop_body k p log w =
  match Variant_find k (remote w) with
  | (Raise e, r1) =>
      (Raise e, set_remote r1 w,
       [EvPrint ("Processing SKU: " ++ k ++ " → " ++ py_str p); EvFind k (Raise e)])
  | (Ok [], r1) =>
      (Ok (log ++ [outcome k p "SKU not found"])%list, set_remote r1 w,
       [EvPrint ("Processing SKU: " ++ k ++ " → " ++ py_str p); EvFind k (Ok []);
        EvPrint ("⚠️ SKU " ++ k ++ " not found in Shopify.");
        EvAppend (outcome k p "SKU not found")])
  | (Ok (v :: vs), r1) =>
      match update_variant_price v p default_retries default_delay (set_remote r1 w) with
      | (Ok true, w2, t) =>
          (Ok (log ++ [outcome k p "Updated"])%list, w2,
           (EvPrint ("Processing SKU: " ++ k ++ " → " ++ py_str p)
              :: EvFind k (Ok (v :: vs)) :: t
              ++ [EvPrint ("✅ Updated SKU " ++ k ++ " to price " ++ py_str p);
                  EvAppend (outcome k p "Updated")])%list)
      | (Ok false, w2, t) =>
          (Ok (log ++ [outcome k p "Failed to update"])%list, w2,
           (EvPrint ("Processing SKU: " ++ k ++ " → " ++ py_str p)
              :: EvFind k (Ok (v :: vs)) :: t
              ++ [EvPrint ("❌ Failed to update SKU " ++ k);
                  EvAppend (outcome k p "Failed to update")])%list)
      | (Raise e, w2, t) =>
          (Raise e, w2,
           EvPrint ("Processing SKU: " ++ k ++ " → " ++ py_str p)
             :: EvFind k (Ok (v :: vs)) :: t)
      end
  end.
Proof.
  unfold loop_body, find_variant_by_sku, find, log_append, print, emit, bind, ret.
  destruct (Variant_find k (remote w)) as [[[|v vs]|e] r1]; cbn -[update_variant_price].
  - reflexivity.
  - destruct (update_variant_price v p default_retries default_delay (set_remote r1 w))
      as [[[[|]|e] w2] t]; cbn; rewrite ?app_nil_r; reflexivity.
  - reflexivity.
Qed.

(** One row: the world changes in the store only, one lookup is made,
    at most three saves; the row either records one outcome with one of
    the three statuses, or raises the exception of the store call that
    is its last event, and then records nothing. *)
Lemma loop_body_spec k (p : Value) log (w : World) res w' t :
  loop_body k p log w = (res, w', t) ->
  session w' = session w /\ csv_files w' = csv_files w /\ written t = []
  /\ lookups t = [k] /\ (List.length (saves t) <= 3)%nat
  /\ match res with
     | Ok log' =>
         remote_errors t = []
         /\ exists e, log' = (log ++ [e])%list /\ appended t = [e]
              /\ SKU e = k /\ Price e = p /\ is_status (Status e)
     | Raise e =>
         remote_errors t = [e] /\ appended t = []
         /\ ((exists t0, t = (t0 ++ [EvFind k (Raise e)])%list)
             \/ (exists t0 v, t = (t0 ++ [EvSave v (Raise e)])%list))
     end.
Proof.
  rewrite loop_body_eq.
  destruct (Variant_find k (remote w)) as [[[|v vs]|e] r1].
  - intros E. inversion E; subst. cbn. repeat split; try lia.
    eexists. repeat split. unfold is_status. auto.
  - destruct (update_variant_price v p default_retries default_delay (set_remote r1 w))
      as [[r w2] t2] eqn:Eu.
    pose proof (update_variant_price_run _ _ _ _ _ _ _ _ Eu) as Hrun.
    unfold update_variant_price in Eu. apply attempts_loop_world in Eu.
    destruct Eu as [Hs Hc]. cbn in Hs, Hc.
    destruct (loop_run_quiet _ _ _ _ _ Hrun) as (Hl & Ha & Hw).
    destruct (loop_run_bound _ _ _ _ _ Hrun) as [Hb _].
    change (Z.to_nat default_retries) with 3%nat in Hb.
    destruct r as [[|]|e]; intros E; inversion E; subst; cbn;
      rewrite ?written_app, ?lookups_app, ?saves_app, ?remote_errors_app,
        ?appended_app, ?length_app, ?Hl, ?Ha, ?Hw; cbn.
    + rewrite (loop_run_ok_no_error _ _ _ _ _ Hrun). repeat split; try lia; auto.
      eexists. repeat split. unfold is_status. auto.
    + rewrite (loop_run_ok_no_error _ _ _ _ _ Hrun). repeat split; try lia; auto.
      eexists. repeat split. unfold is_status. auto.
    + destruct (loop_run_raise _ _ _ _ _ default_delay_nonneg Hrun)
        as (He & t0 & v' & ->).
      rewrite He. repeat split; try lia; auto.
      right. exists (EvPrint ("Processing SKU: " ++ k ++ " → " ++ py_str p)
                       :: EvFind k (Ok (v :: vs)) :: t0)%list, v'.
      reflexivity.
  - intros E. inversion E; subst. cbn. repeat split; try lia.
    left. exists [EvPrint ("Processing SKU: " ++ k ++ " → " ++ py_str p)].
    reflexivity.
Qed.

Lemma for_items_cons k (p : Value) rest log :
  for_items ((k, p) :: rest) log
  = bind (loop_body k p log) (fun log_entries => for_items rest log_entries).
Proof. reflexivity. Qed.

(** The row loop: it writes no file and changes the world in the store
    only.  When it returns, the outcomes appended are one per item, in
    the order of the items; when it raises, the outcomes appended are
    those of the items before the one whose store call raised, and that
    call is the last event. *)
Lemma for_items_spec items : forall log (w : World) res w' t,
  for_items items log w = (res, w', t) ->
  session w' = session w /\ csv_files w' = csv_files w /\ written t = []
  /\ Forall (fun e => is_status (Status e)) (appended t)
  /\ match res with
     | Ok log' =>
         remote_errors t = [] /\ log' = (log ++ appended t)%list
         /\ map SKU (appended t) = map fst items
         /\ map Price (appended t) = map snd items
         /\ lookups t = map fst items
     | Raise e =>
         remote_errors t = [e]
         /\ (exists before k p after,
               items = (before ++ (k, p) :: after)%list
               /\ map SKU (appended t) = map fst before
               /\ map Price (appended t) = map snd before
               /\ lookups t = (map fst before ++ [k])%list)
         /\ ((exists t0 k, t = (t0 ++ [EvFind k (Raise e)])%list)
             \/ (exists t0 v, t = (t0 ++ [EvSave v (Raise e)])%list))
     end.
Proof.
  induction items as [|[k p] rest IH]; intros log w res w' t E.
  - cbn in E. unfold ret in E. inversion E; subst. cbn.
    rewrite app_nil_r. repeat split; auto.
  - rewrite for_items_cons in E. apply bind_inv in E.
    destruct E as [(e & Eb & ->)|(log1 & w1 & t1 & t2 & Eb & Er & ->)].
    + apply loop_body_spec in Eb.
      destruct Eb as (Hs & Hc & Hw & Hl & _ & He & Ha & Hlast).
      rewrite Ha. repeat split; auto.
      * exists [], k, p, rest. rewrite Hl. repeat split; reflexivity.
      * destruct Hlast as [(t0 & ->)|(t0 & v & ->)]; [left|right]; eauto.
    + apply loop_body_spec in Eb.
      destruct Eb as (Hs & Hc & Hw & Hl & _ & He & en & -> & Ha & Hk & Hp & Hst).
      apply IH in Er. destruct Er as (Hs2 & Hc2 & Hw2 & Hst2 & Hres).
      rewrite written_app, appended_app, remote_errors_app, lookups_app,
        Hw, Hw2, Ha, He, Hl.
      split; [congruence|]. split; [congruence|]. split; [reflexivity|].
      split; [constructor; assumption|].
      destruct res as [log'|e].
      * destruct Hres as (He2 & -> & Hsk & Hpr & Hlk).
        cbn. rewrite He2, Hsk, Hpr, Hlk, Hk, Hp, <- app_assoc. repeat split.
      * destruct Hres as (He2 & (before & k' & p' & after & -> & Hsk & Hpr & Hlk) & Hlast).
        cbn. rewrite He2, Hsk, Hpr, Hlk, Hk, Hp. repeat split.
        -- exists ((k, p) :: before)%list, k', p', after. repeat split.
        -- destruct Hlast as [(t0 & k0 & ->)|(t0 & v & ->)]; [left|right].
           ++ exists (t1 ++ t0)%list, k0. now rewrite app_assoc.
           ++ exists (t1 ++ t0)%list, v. now rewrite app_assoc.
Qed.

(** [main], by the answers of session setup and file loading and by
    the result of the row loop. *)
Lemma main_eq (w : World) :
  main w =
  match session_result with
  | Raise e => (Raise e, w, [])
  | Ok _ =>
      match load_result with
      | Raise e =>
          (Raise e, activated w,
           [EvActivateSession site_url ACCESS_TOKEN;
            EvPrint "Connected to Shopify API."; EvReadExcel EXCEL_FILE])
      | Ok updates =>
          match for_items (dict_items updates) [] (activated w) with
          | (Raise e, w2, t) =>
              (Raise e, w2,
               EvActivateSession site_url ACCESS_TOKEN
                 :: EvPrint "Connected to Shopify API." :: EvReadExcel EXCEL_FILE
                 :: EvPrint ("Loaded " ++ str_nat (dict_len updates)
                               ++ " price updates from Excel.") :: t)
          | (Ok log, w2, t) =>
              (Ok tt, finished log w2,
               (EvActivateSession site_url ACCESS_TOKEN
                 :: EvPrint "Connected to Shopify API." :: EvReadExcel EXCEL_FILE
                 :: EvPrint ("Loaded " ++ str_nat (dict_len updates)
                               ++ " price updates from Excel.") :: t
                 ++ [EvToCsv LOG_FILE log;
                     EvPrint (String "010" "📄 Log file saved as: " ++ LOG_FILE);
                     EvClearSession; EvPrint "Finished updating prices."])%list)
          end
      end
  end.
Proof.
  unfold main, connect_to_shopify, read_price_updates, read_excel, session_result,
    load_result, site_url, activate_session, clear_session, to_csv, print, emit,
    lift, bind, ret, result_bind.
  destruct (shopify_Session _ ACCESS_TOKEN) as [[]|e]; [|reflexivity].
  cbn -[for_items price_updates_of str_nat String.append].
  destruct (pd_read_excel EXCEL_FILE) as [df|e]; [|reflexivity].
  destruct (price_updates_of df) as [updates|e]; [|reflexivity].
  set (F := for_items (dict_items updates) []).
  match goal with
  | |- context [F ?x] => change (F x) with (F (activated w))
  end.
  destruct (F (activated w)) as [[[log|e] w2] t];
    cbn -[str_nat String.append]; rewrite ?app_nil_r; reflexivity.
Qed.
End MainFacts.

(** ** Dictionaries and the loader *)

Section LoaderFacts.
Context {Value : Type} {PV : PyValue Value}.
Implicit Types (d : dict Value) (pairs : list (string * Value)).

Lemma dict_get_setitem q k v d :
  dict_get q (dict_setitem k v d) = if String.eqb k q then Some v else dict_get q d.
Proof.
  induction d as [|[k' v'] d IH]; cbn.
  - reflexivity.
  - destruct (String.eqb k' k) eqn:Ek; cbn.
    + apply String.eqb_eq in Ek. subst k'.
      destruct (String.eqb k q); reflexivity.
    + destruct (String.eqb k' q) eqn:Eq.
      * apply String.eqb_eq in Eq. subst k'.
        rewrite String.eqb_sym, Ek. reflexivity.
      * exact IH.
Qed.

Lemma dict_get_fold q pairs : forall d,
  dict_get q (fold_left (fun d kv => dict_setitem (fst kv) (snd kv) d) pairs d)
  = fold_left (fun acc kv => if String.eqb (fst kv) q then Some (snd kv) else acc)
      pairs (dict_get q d).
Proof.
  induction pairs as [|[k v] pairs IH]; intros d; cbn.
  - reflexivity.
  - rewrite IH, dict_get_setitem. reflexivity.
Qed.

(** A key of the dictionary maps to the value of its last pair. *)
Lemma py_dict_get q pairs : dict_get q (py_dict pairs) = last_value q pairs.
Proof. unfold py_dict, last_value. now rewrite dict_get_fold. Qed.

Lemma dict_setitem_keys q k v d :
  In q (map fst (dict_setitem k v d)) <-> q = k \/ In q (map fst d).
Proof.
  induction d as [|[k' v'] d IH]; cbn.
  - intuition.
  - destruct (String.eqb k' k) eqn:Ek; cbn.
    + apply String.eqb_eq in Ek. subst k'. intuition.
    + rewrite IH. intuition.
Qed.

Lemma dict_setitem_nodup k v d :
  NoDup (map fst d) -> NoDup (map fst (dict_setitem k v d)).
Proof.
  induction d as [|[k' v'] d IH]; cbn; intros Hnd.
  - constructor; [intros []|constructor].
  - inversion Hnd as [|? ? Hnotin Hnd']; subst.
    destruct (String.eqb k' k) eqn:Ek; cbn.
    + constructor; assumption.
    + constructor; [|auto]. rewrite dict_setitem_keys. intros [->|Hin].
      * rewrite String.eqb_refl in Ek. discriminate.
      * contradiction.
Qed.

Lemma dict_setitem_in q x k v d :
  In (q, x) (dict_setitem k v d) -> (q, x) = (k, v) \/ In (q, x) d.
Proof.
  induction d as [|[k' v'] d IH]; cbn.
  - intros [E|[]]. left. now symmetry.
  - destruct (String.eqb k' k) eqn:Ek; cbn.
    + apply String.eqb_eq in Ek. subst k'. intros [E|Hin]; [left; now symmetry|auto].
    + intros [E|Hin]; [auto|]. apply IH in Hin. intuition.
Qed.

Lemma py_dict_fold_facts pairs : forall d,
  NoDup (map fst d) ->
  let d' := fold_left (fun d kv => dict_setitem (fst kv) (snd kv) d) pairs d in
  NoDup (map fst d') /\ (forall kv, In kv d' -> In kv pairs \/ In kv d).
Proof.
  induction pairs as [|[k v] pairs IH]; intros d Hnd; cbn.
  - auto.
  - destruct (IH (dict_setitem k v d) (dict_setitem_nodup k v d Hnd)) as [Hnd' Hin].
    split; [exact Hnd'|]. intros [q x] Hq. apply Hin in Hq.
    destruct Hq as [Hq|Hq]; [auto|]. apply dict_setitem_in in Hq.
    destruct Hq as [Hq|Hq]; [left; left; now symmetry|auto].
Qed.

(** A dictionary has no key twice, and its items are among the pairs
    it was built from. *)
Lemma py_dict_facts pairs :
  NoDup (map fst (py_dict pairs)) /\ (forall kv, In kv (py_dict pairs) -> In kv pairs).
Proof.
  destruct (py_dict_fold_facts pairs [] (NoDup_nil _)) as [Hnd Hin].
  split; [exact Hnd|]. intros kv Hkv. destruct (Hin kv Hkv) as [|[]]. assumption.
Qed.

(** *** [dropna] *)

Lemma map2_andb_true n (l : list bool) :
  List.length l = n -> map2_andb (repeat true n) l = l.
Proof.
  revert n. induction l as [|b l IH]; intros n Hn; subst n; cbn.
  - reflexivity.
  - now rewrite IH.
Qed.

Lemma select_complete (skus prices : Series Value) :
  List.length skus = List.length prices ->
  let mask := map2_andb (map notna skus) (map notna prices) in
  combine (select mask skus) (select mask prices)
  = filter complete_row (combine skus prices).
Proof.
  revert prices. induction skus as [|a skus IH]; intros [|b prices] Hlen;
    cbn in *; try discriminate; try reflexivity.
  unfold complete_row at 1. cbn [fst snd].
  destruct (notna a && notna b); cbn; rewrite IH by lia; reflexivity.
Qed.

Lemma df_getitem_select mask (df : DataFrame Value) name :
  df_getitem (map (fun nc => (fst nc, select mask (snd nc))) df) name
  = result_bind (df_getitem df name) (fun col => Ok (select mask col)).
Proof.
  induction df as [|[n col] df IH]; cbn.
  - reflexivity.
  - destruct (String.eqb n name); [reflexivity|exact IH].
Qed.

Lemma df_getitem_in (df : DataFrame Value) name col :
  df_getitem df name = Ok col -> In (name, col) df.
Proof.
  induction df as [|[n c] df IH]; cbn; [discriminate|].
  destruct (String.eqb n name) eqn:En.
  - apply String.eqb_eq in En. subst n. intros E. inversion E; subst. auto.
  - auto.
Qed.

(** The mapping loaded from a frame that has both columns: the pairs of
    the rows with a value in both, identifier as a string, put in a
    dictionary in row order. *)
Lemma price_updates_of_eq (df : DataFrame Value) skus prices :
  well_formed df ->
  df_getitem df SKU_COLUMN = Ok skus ->
  df_getitem df PRICE_COLUMN = Ok prices ->
  price_updates_of df
  = Ok (py_dict (stringified (filter complete_row (combine skus prices)))).
Proof.
  intros Hwf Hs Hp.
  assert (Hls : List.length skus = nrows df)
    by (eapply Hwf, df_getitem_in; eassumption).
  assert (Hlp : List.length prices = nrows df)
    by (eapply Hwf, df_getitem_in; eassumption).
  unfold price_updates_of, dropna. cbn [df_columns]. rewrite Hs, Hp. cbn [result_bind].
  rewrite !df_getitem_select, Hs, Hp. cbn [result_bind].
  unfold complete_mask. cbn [fold_left].
  rewrite map2_andb_true by (now rewrite length_map).
  unfold astype_str, stringified.
  rewrite <- select_complete by congruence.
  f_equal. f_equal.
  generalize (select (map2_andb (map notna skus) (map notna prices)) skus).
  generalize (select (map2_andb (map notna skus) (map notna prices)) prices).
  intros l2 l1. revert l2. induction l1 as [|a l1 IH]; intros [|b l2]; cbn;
    try reflexivity. now rewrite IH.
Qed.
End LoaderFacts.

(** * The price updater *)

Section UpdaterClaims.
Context {Value Remote : Type} {PV : PyValue Value} {SV : Services Value Remote}.

Local Abbreviation World := (World Value Remote).

Lemma py_range_cons lo hi :
  (lo < hi)%Z -> py_range lo hi = lo :: py_range (lo + 1) hi.
Proof.
  intros Hlt. unfold py_range.
  replace (Z.to_nat (hi - lo)) with (S (Z.to_nat (hi - (lo + 1)))) by lia.
  cbn [seq map]. f_equal; [lia|].
  rewrite <- seq_shift, map_map. apply map_ext. intros i. lia.
Qed.

Lemma set_price_same (v : Variant) : set_price (price v) v = v.
Proof. destruct v. reflexivity. Qed.

(** C1, as the code has it.  When every save attempt of a call
    [update_variant_price(variant, new_price, retries, delay)] with a
    delay that is not negative reports
    failure, the call returns [False] after exactly [retries] save
    attempts (none when [retries] is negative), and it has slept [delay]
    seconds after every one of them: [retries] delays, not
    [retries - 1].  The last delay comes after the last attempt, just
    before the call returns. *)
Theorem update_variant_price_all_fail (v : Variant) (p : Value) retries d (w : World) :
  (0 <= d)%Z ->
  (forall v' a,
      In (v', a) (saves (trace_of (update_variant_price v p retries d w))) ->
      a = Ok false) ->
  result_of (update_variant_price v p retries d w) = Ok false
  /\ List.length (saves (trace_of (update_variant_price v p retries d w)))
     = Z.to_nat retries
  /\ sleeps (trace_of (update_variant_price v p retries d w))
     = repeat d (Z.to_nat retries)
  /\ ((1 <= retries)%Z ->
      exists t0 v' msg,
        trace_of (update_variant_price v p retries d w)
        = t0 ++ [EvSave v' (Ok false); EvPrint msg; EvSleep d]).
Proof.
  destruct (update_variant_price v p retries d w) as [[res w'] t] eqn:E.
  cbn. intros Hd Hall. apply update_variant_price_run in E.
  destruct (loop_run_all_fail _ _ _ _ _ Hd E Hall) as (-> & Hlen & Hsl & _).
  repeat split; auto. intros Hr.
  apply (loop_run_all_fail_last _ _ _ _ _ Hd E Hall). lia.
Qed.

(** The same on a write path that always fails: a store that reports
    failure to every save, in every state. *)
Lemma update_variant_price_store_refuses (v : Variant) (p : Value) retries d (w : World) :
  (0 <= d)%Z ->
  (forall v' r, fst (fst (Variant_save v' r)) = Ok false) ->
  result_of (update_variant_price v p retries d w) = Ok false
  /\ List.length (saves (trace_of (update_variant_price v p retries d w)))
     = Z.to_nat retries
  /\ sleeps (trace_of (update_variant_price v p retries d w))
     = repeat d (Z.to_nat retries).
Proof.
  intros Hd Hrefuse.
  destruct (update_variant_price v p retries d w) as [[res w'] t] eqn:E.
  cbn. pose proof (update_variant_price_run _ _ _ _ _ _ _ _ E) as Hrun.
  unfold update_variant_price in E.
  assert (Hall : forall v' a, In (v', a) (saves t) -> a = Ok false).
  { intros v' a Hin. destruct (attempts_loop_answers _ _ _ _ _ _ _ _ E v' a Hin) as [r ->].
    apply Hrefuse. }
  destruct (loop_run_all_fail _ _ _ _ _ Hd Hrun Hall) as (-> & Hlen & Hsl & _). auto.
Qed.


(** C9.  With [retries <= 0] the call returns [False] and does nothing:
    no event at all (no assignment, no save, no delay), and the world
    is as it was. *)
Theorem update_variant_price_no_retries (v : Variant) (p : Value) retries d (w : World) :
  (retries <= 0)%Z ->
  update_variant_price v p retries d w = (Ok false, w, []).
Proof.
  intros Hle. unfold update_variant_price.
  rewrite py_range_empty by lia. reflexivity.
Qed.

(** C10.  Every save attempt of a call comes right after an assignment
    of [str(new_price)] to the price field, and the object it sends
    holds that string, whatever the earlier attempts left in the
    object; there are at most [retries] attempts. *)
Theorem update_variant_price_assigns_before_save (v : Variant) (p : Value) retries d
    (w : World) t1 v' a t2 :
  trace_of (update_variant_price v p retries d w) = t1 ++ EvSave v' a :: t2 ->
  price v' = py_str p
  /\ (exists t0, t1 = t0 ++ [EvSetPrice (py_str p)])
  /\ (List.length (saves (trace_of (update_variant_price v p retries d w)))
      <= Z.to_nat retries)%nat.
Proof.
  destruct (update_variant_price v p retries d w) as [[res w'] t] eqn:E.
  cbn. intros Et. apply update_variant_price_run in E.
  destruct (loop_run_assigned _ _ _ _ _ E _ _ _ _ Et) as [Hp Ht0].
  destruct (loop_run_bound _ _ _ _ _ E) as [Hb _]. auto.
Qed.

(** The first turn of the loop of a call with [retries >= 1]. *)
Lemma update_variant_price_first (v : Variant) (p : Value) retries d (w : World) :
  (1 <= retries)%Z ->
  exists t',
    trace_of (update_variant_price v p retries d w)
    = EvSetPrice (py_str p)
        :: EvSave (set_price (py_str p) v)
             (fst (fst (Variant_save (set_price (py_str p) v) (remote w))))
        :: t'.
Proof.
  intros Hr. unfold update_variant_price.
  rewrite py_range_cons by lia. rewrite attempts_loop_cons.
  destruct (Variant_save (set_price (py_str p) v) (remote w)) as [[[[|]|e] v'] r'].
  - eexists. reflexivity.
  - destruct (d <? 0)%Z; [eexists; reflexivity|].
    destruct (attempts_loop (py_range (1 + 1) (retries + 1)) v' p d (set_remote r' w))
      as [[res w2] t]. eexists. reflexivity.
  - eexists. reflexivity.
Qed.

(** C8.  A variant whose price is already [str(new_price)] is treated
    like any other: with [retries >= 1] the call starts by assigning
    the price and saving the variant; a save that reports success makes
    the call return [True]; and the row of such a variant is logged as
    "Updated". *)
Theorem update_variant_price_no_short_circuit (v : Variant) (p : Value) retries d
    (w : World) :
  price v = py_str p ->
  (1 <= retries)%Z ->
  (exists t',
      trace_of (update_variant_price v p retries d w)
      = EvSetPrice (py_str p)
          :: EvSave v (fst (fst (Variant_save v (remote w)))) :: t')
  /\ (fst (fst (Variant_save v (remote w))) = Ok true ->
      result_of (update_variant_price v p retries d w) = Ok true
      /\ trace_of (update_variant_price v p retries d w)
         = [EvSetPrice (py_str p); EvSave v (Ok true)])
  /\ (forall v',
        In (v', Ok true) (saves (trace_of (update_variant_price v p retries d w))) ->
        result_of (update_variant_price v p retries d w) = Ok true)
  /\ (forall k vs r1 log v',
        Variant_find k (remote w) = (Ok (v :: vs), r1) ->
        In (v', Ok true) (saves (trace_of (loop_body k p log w))) ->
        result_of (loop_body k p log w)
        = Ok (log ++ [{| SKU := k; Price := p; Status := "Updated" |}])).
Proof.
  intros Hp Hr. repeat split.
  - destruct (update_variant_price_first v p retries d w Hr) as [t' Et].
    rewrite <- Hp, set_price_same in Et. rewrite <- Hp. eauto.
  - unfold update_variant_price. rewrite py_range_cons by lia.
    rewrite attempts_loop_cons, <- Hp, set_price_same.
    destruct (Variant_save v (remote w)) as [[a v'] r']. cbn in H. subst a.
    reflexivity.
  - unfold update_variant_price. rewrite py_range_cons by lia.
    rewrite attempts_loop_cons, <- Hp, set_price_same.
    destruct (Variant_save v (remote w)) as [[a v'] r']. cbn in H. subst a.
    reflexivity.
  - intros v' Hin.
    destruct (update_variant_price v p retries d w) as [[res w'] t] eqn:E.
    cbn in *. apply update_variant_price_run in E.
    eapply loop_run_success; eassumption.
  - intros k vs r1 log v' Hf. rewrite loop_body_eq, Hf.
    destruct (update_variant_price v p default_retries default_delay (set_remote r1 w))
      as [[res w2] t] eqn:E.
    apply update_variant_price_run in E.
    destruct res as [[|]|e]; cbn; intros Hin.
    + reflexivity.
    + rewrite saves_app, app_nil_r in Hin.
      pose proof (loop_run_false _ _ _ _ E v' (Ok true) Hin). discriminate.
    + pose proof (loop_run_success _ _ _ _ _ _ E Hin). discriminate.
Qed.
End UpdaterClaims.

(** * The rows and the run *)

Section RunClaims.
Context {Value Remote : Type} {PV : PyValue Value} {SV : Services Value Remote}.

Local Abbreviation World := (World Value Remote).
Local Abbreviation outcome k p st := {| SKU := k; Price := p; Status := st |}.

Local Open Scope string_scope.

(** C4.  The status recorded for a row: "SKU not found" when the lookup
    returns no match; "Updated" when it returns a match and one of the
    save attempts reports success; "Failed to update" when it returns a
    match and every save attempt reports failure.  A row makes at most
    three save attempts, and no outcome has another status. *)
Theorem loop_body_status k (p : Value) log (w : World) :
  (forall r1,
      Variant_find k (remote w) = (Ok [], r1) ->
      result_of (loop_body k p log w) = Ok (log ++ [outcome k p "SKU not found"])%list
      /\ appended (trace_of (loop_body k p log w)) = [outcome k p "SKU not found"])
  /\ (forall v vs r1 v',
        Variant_find k (remote w) = (Ok (v :: vs), r1) ->
        In (v', Ok true) (saves (trace_of (loop_body k p log w))) ->
        result_of (loop_body k p log w) = Ok (log ++ [outcome k p "Updated"])%list
        /\ appended (trace_of (loop_body k p log w)) = [outcome k p "Updated"])
  /\ (forall v vs r1,
        Variant_find k (remote w) = (Ok (v :: vs), r1) ->
        (forall v' a, In (v', a) (saves (trace_of (loop_body k p log w))) ->
                      a = Ok false) ->
        result_of (loop_body k p log w)
        = Ok (log ++ [outcome k p "Failed to update"])%list
        /\ appended (trace_of (loop_body k p log w)) = [outcome k p "Failed to update"]
        /\ List.length (saves (trace_of (loop_body k p log w))) = 3%nat)
  /\ (List.length (saves (trace_of (loop_body k p log w))) <= 3)%nat
  /\ (forall e, In e (appended (trace_of (loop_body k p log w))) ->
                is_status (Status e)).
Proof.
  split; [|split; [|split; [|split]]].
  - intros r1 Hf. rewrite loop_body_eq, Hf. cbn. auto.
  - intros v vs r1 v' Hf. rewrite loop_body_eq, Hf.
    destruct (update_variant_price v p default_retries default_delay (set_remote r1 w))
      as [[res w2] t] eqn:E.
    apply update_variant_price_run in E.
    destruct (loop_run_quiet _ _ _ _ _ E) as (_ & Ha & _).
    destruct res as [[|]|e]; cbn; rewrite ?saves_app, ?appended_app, ?Ha, ?app_nil_r;
      intros Hin.
    + auto.
    + pose proof (loop_run_false _ _ _ _ E v' (Ok true) Hin). discriminate.
    + pose proof (loop_run_success _ _ _ _ _ _ E Hin). discriminate.
  - intros v vs r1 Hf. rewrite loop_body_eq, Hf.
    destruct (update_variant_price v p default_retries default_delay (set_remote r1 w))
      as [[res w2] t] eqn:E.
    apply update_variant_price_run in E.
    destruct (loop_run_quiet _ _ _ _ _ E) as (_ & Ha & _).
    assert (Hall : (forall v' a, In (v', a) (saves t) -> a = Ok false) ->
                   res = Ok false /\ List.length (saves t) = 3%nat).
    { intros Hall.
      destruct (loop_run_all_fail _ _ _ _ _ default_delay_nonneg E Hall)
        as (-> & Hlen & _).
      auto. }
    destruct res as [[|]|e]; cbn; rewrite ?saves_app, ?appended_app, ?Ha, ?app_nil_r;
      intros Hsaves; destruct (Hall Hsaves) as [Hres Hlen]; try discriminate.
    auto.
  - destruct (loop_body k p log w) as [[res w'] t] eqn:E.
    apply loop_body_spec in E. cbn. tauto.
  - destruct (loop_body k p log w) as [[res w'] t] eqn:E.
    apply loop_body_spec in E. cbn.
    destruct E as (_ & _ & _ & _ & _ & Hres). intros e Hin.
    destruct res as [log'|x].
    + destruct Hres as (_ & e' & _ & Ha & _ & _ & Hst). rewrite Ha in Hin.
      destruct Hin as [<-|[]]. exact Hst.
    + destruct Hres as (_ & Ha & _). rewrite Ha in Hin. destruct Hin.
Qed.

(** C3, as the code has it.  When session setup and file loading succeed
    and no call to the store raises, the run returns, and it writes one
    log file with exactly one outcome per entry of the loaded mapping,
    in the iteration order of the mapping. *)
Theorem main_log_complete (w : World) (updates : dict Value) :
  session_result = Ok tt ->
  load_result = Ok updates ->
  remote_errors (trace_of (main w)) = [] ->
  exists log,
    result_of (main w) = Ok tt
    /\ written (trace_of (main w)) = [(LOG_FILE, log)]
    /\ csv_files (world_of (main w)) = (LOG_FILE, log) :: csv_files w
    /\ appended (trace_of (main w)) = log
    /\ List.length log = dict_len updates
    /\ map SKU log = map fst (dict_items updates)
    /\ map Price log = map snd (dict_items updates).
Proof.
  intros Hs Hl. rewrite main_eq, Hs, Hl.
  destruct (for_items (dict_items updates) [] (activated w)) as [[res w2] t] eqn:E.
  apply for_items_spec in E. destruct E as (_ & Hc & Hw & _ & Hres).
  destruct res as [log|e]; cbn.
  - destruct Hres as (_ & -> & Hsk & Hpr & _). intros _.
    exists (appended t). cbn. rewrite written_app, appended_app, Hw, Hc. cbn.
    rewrite app_nil_r. repeat split; auto.
    unfold dict_len, dict_items in *.
    rewrite <- (length_map SKU), Hsk, length_map. reflexivity.
  - destruct Hres as (He & _). rewrite He. discriminate.
Qed.

(** C2, as the code has it.  An error raised by a lookup or by a save is
    not caught: the run ends with that error at that call, which is its
    last event.  The outcomes recorded are those of the rows before the
    row being processed; that row gets no outcome, the rows after it
    are not looked up, and no log file is written. *)
Theorem main_remote_error_aborts (w : World) e :
  In e (remote_errors (trace_of (main w))) ->
  result_of (main w) = Raise e
  /\ written (trace_of (main w)) = []
  /\ csv_files (world_of (main w)) = csv_files w
  /\ ((exists t0 k, trace_of (main w) = (t0 ++ [EvFind k (Raise e)])%list)
      \/ (exists t0 v, trace_of (main w) = (t0 ++ [EvSave v (Raise e)])%list))
  /\ exists updates before k p after,
       load_result = Ok updates
       /\ dict_items updates = (before ++ (k, p) :: after)%list
       /\ map SKU (appended (trace_of (main w))) = map fst before
       /\ map Price (appended (trace_of (main w))) = map snd before
       /\ lookups (trace_of (main w)) = (map fst before ++ [k])%list.
Proof.
  rewrite main_eq.
  destruct session_result as [[]|e0]; [|intros []].
  destruct load_result as [updates|e0]; [|cbn; tauto].
  destruct (for_items (dict_items updates) [] (activated w)) as [[res w2] t] eqn:E.
  apply for_items_spec in E. destruct E as (_ & Hc & Hw & _ & Hres).
  destruct res as [log|e1]; cbn.
  - destruct Hres as (He & _). rewrite remote_errors_app, He. cbn. tauto.
  - destruct Hres as (He & (before & k & p & after & Hit & Hsk & Hpr & Hlk) & Hlast).
    rewrite He. intros [->|[]]. repeat split; auto.
    + destruct Hlast as [(t0 & k0 & ->)|(t0 & v & ->)]; [left|right].
      * eexists (_ :: _ :: _ :: _ :: t0)%list, k0. reflexivity.
      * eexists (_ :: _ :: _ :: _ :: t0)%list, v. reflexivity.
    + exists updates, before, k, p, after. auto.
Qed.

(** C7, as the code has it.  When session setup fails, or it succeeds
    and file loading fails, the run ends with that error before any
    row: the store is in the state it was in, no variant is looked up,
    no save is attempted, no outcome is recorded and no log file is
    written.  After a failed session setup nothing at all has happened.
    After a failed file loading the session has been activated and is
    left active, and "Connected to Shopify API." has been printed. *)
Theorem main_fatal_error (w : World) e :
  session_result = Raise e \/ (session_result = Ok tt /\ load_result = Raise e) ->
  result_of (main w) = Raise e
  /\ remote (world_of (main w)) = remote w
  /\ csv_files (world_of (main w)) = csv_files w
  /\ lookups (trace_of (main w)) = []
  /\ saves (trace_of (main w)) = []
  /\ appended (trace_of (main w)) = []
  /\ written (trace_of (main w)) = []
  /\ (session_result = Raise e -> main w = (Raise e, w, []))
  /\ (session_result = Ok tt ->
      load_result = Raise e ->
      main w
      = (Raise e, activated w,
         [EvActivateSession site_url ACCESS_TOKEN;
          EvPrint "Connected to Shopify API."; EvReadExcel EXCEL_FILE])).
Proof.
  rewrite main_eq. intros [Hs|[Hs Hl]].
  - rewrite Hs. cbn. repeat split; auto. discriminate.
  - rewrite Hs, Hl. cbn. repeat split; auto. discriminate.
Qed.
End RunClaims.

(** * The loader *)

Section LoaderClaims.
Context {Value Remote : Type} {PV : PyValue Value} {SV : Services Value Remote}
        {RD : Reader Value}.

Lemma is_na_text_empty : is_na_text "" = true.
Proof. reflexivity. Qed.

Lemma isna_read_cell (c : cell Value) :
  reader_keeps_missing -> isna (read_cell c) = missing_cell c.
Proof.
  intros (Hnan & Htext & _). destruct c as [|s|v]; cbn [read_cell missing_cell].
  - exact Hnan.
  - destruct (is_na_text s); [exact Hnan|apply Htext].
  - reflexivity.
Qed.

Lemma read_column_isna (col : list (cell Value)) :
  reader_keeps_missing -> map isna (read_column col) = map missing_cell col.
Proof.
  intros Hrd. pose proof Hrd as (_ & _ & Hinf). unfold read_column.
  rewrite Hinf, map_map. apply map_ext. intros c. now apply isna_read_cell.
Qed.

Lemma read_column_length (col : list (cell Value)) :
  reader_keeps_missing -> List.length (read_column col) = List.length col.
Proof.
  intros Hrd. rewrite <- (length_map isna), (read_column_isna col Hrd).
  apply length_map.
Qed.

Lemma read_frame_getitem (sheet : Sheet Value) name :
  df_getitem (read_frame sheet) name
  = match sheet_column sheet name with
    | Some col => Ok (read_column col)
    | None => Raise (Exception "KeyError")
    end.
Proof.
  induction sheet as [|[n col] sheet IH]; cbn; [reflexivity|].
  destruct (String.eqb n name); [reflexivity|exact IH].
Qed.

Lemma read_frame_well_formed (sheet : Sheet Value) :
  reader_keeps_missing -> rectangular sheet -> well_formed (read_frame sheet).
Proof.
  intros Hrd Hrect n col Hin. unfold read_frame in Hin.
  apply in_map_iff in Hin. destruct Hin as ([n0 c0] & E & Hin). cbn in E.
  inversion E; subst. rewrite (read_column_length _ Hrd), (Hrect _ _ Hin).
  destruct sheet as [|[n1 c1] sheet]; [destruct Hin|].
  cbn. now rewrite (read_column_length _ Hrd).
Qed.

(** The rows that the loader keeps are those whose two cells both hold
    a value. *)
Lemma complete_rows_of_cells (ids raw : list (cell Value)) :
  reader_keeps_missing ->
  map complete_row (combine (read_column ids) (read_column raw))
  = map (fun r => negb (missing_cell (fst r)) && negb (missing_cell (snd r)))
      (combine ids raw).
Proof.
  intros Hrd.
  pose proof (read_column_isna ids Hrd) as Hi.
  pose proof (read_column_isna raw Hrd) as Hr.
  revert Hi Hr. generalize (read_column ids) (read_column raw).
  intros A. revert ids raw.
  induction A as [|a A IH]; intros [|i ids] [|r raw] [|b B] Hi Hr;
    cbn in *; try discriminate; try reflexivity.
  injection Hi as Ha Hi'. injection Hr as Hb Hr'.
  unfold complete_row at 1, notna. cbn [fst snd].
  rewrite Ha, Hb. f_equal. now apply IH.
Qed.

(** C5, as the code has it.  For a sheet with both columns, read with
    the defaults of [pd.read_excel], the loader keeps the rows whose
    identifier cell and price cell both hold a value, and excludes every
    other row: a blank cell and the empty text are missing values, so a
    row with an empty-string identifier or a null price is excluded.  No
    identifier is in the mapping twice, and each identifier maps to the
    price of its last occurrence among the rows that are kept. *)
Theorem read_price_updates_complete_rows (w : World Value Remote)
    (sheet : Sheet Value) ids raw :
  reader_keeps_missing ->
  pd_read_excel EXCEL_FILE = Ok (read_frame sheet) ->
  rectangular sheet ->
  sheet_column sheet SKU_COLUMN = Some ids ->
  sheet_column sheet PRICE_COLUMN = Some raw ->
  exists updates,
    read_price_updates EXCEL_FILE w = (Ok updates, w, [EvReadExcel EXCEL_FILE])
    /\ updates
       = py_dict (stringified
                    (filter complete_row (combine (read_column ids) (read_column raw))))
    /\ map complete_row (combine (read_column ids) (read_column raw))
       = map (fun r => negb (missing_cell (fst r)) && negb (missing_cell (snd r)))
           (combine ids raw)
    /\ missing_cell (Text "" : cell Value) = true
    /\ missing_cell (Blank : cell Value) = true
    /\ NoDup (map fst (dict_items updates))
    /\ (forall k,
          dict_get k updates
          = last_value k
              (stringified
                 (filter complete_row (combine (read_column ids) (read_column raw)))))
    /\ (forall k v,
          In (k, v) (dict_items updates) ->
          exists a, In (a, v) (combine (read_column ids) (read_column raw))
                    /\ isna a = false /\ isna v = false /\ py_str a = k).
Proof.
  intros Hrd Hr Hrect Hs Hp.
  assert (Hwf : well_formed (read_frame sheet)) by now apply read_frame_well_formed.
  assert (Hgs : df_getitem (read_frame sheet) SKU_COLUMN = Ok (read_column ids))
    by now rewrite read_frame_getitem, Hs.
  assert (Hgp : df_getitem (read_frame sheet) PRICE_COLUMN = Ok (read_column raw))
    by now rewrite read_frame_getitem, Hp.
  exists (py_dict (stringified
                     (filter complete_row (combine (read_column ids) (read_column raw))))).
  split; [|split; [reflexivity|split; [|split; [|split; [|split; [|split]]]]]].
  - unfold read_price_updates, read_excel, bind, emit, lift. rewrite Hr.
    rewrite (price_updates_of_eq _ _ _ Hwf Hgs Hgp). reflexivity.
  - now apply complete_rows_of_cells.
  - reflexivity.
  - reflexivity.
  - apply py_dict_facts.
  - intros k. apply py_dict_get.
  - intros k v Hin. apply py_dict_facts in Hin. unfold stringified in Hin.
    apply in_map_iff in Hin. destruct Hin as ([a b] & E & Hin). cbn in E.
    inversion E; subst. apply filter_In in Hin. destruct Hin as [Hin Hc].
    unfold complete_row, notna in Hc. cbn in Hc.
    apply andb_true_iff in Hc. destruct Hc as [Ha Hb].
    apply negb_true_iff in Ha, Hb. exists a. auto.
Qed.
End LoaderClaims.

(** * More on the updater *)

Section LoopRunMore.
Context {Value : Type}.
Variables (s : string) (d : Z).
Implicit Types t : list (event Value).

(** A save that raises ends the loop with its exception, as the last
    event; the loop slept after the saves before it only. *)
Lemma loop_run_raised n res t v e :
  loop_run s d n res t ->
  In (v, Raise e) (saves t) ->
  res = Raise e
  /\ (exists t0, t = t0 ++ [EvSave v (Raise e)])
  /\ sleeps t = repeat d (List.length (saves t) - 1).
Proof.
  induction 1 as [|n v0 Hv|n v0 e0 Hv|n v0 msg Hv Hneg|n v0 msg res t Hv _ Hrun IH];
    cbn; intros Hin.
  - contradiction.
  - destruct Hin as [Hin|[]]. discriminate.
  - destruct Hin as [Hin|[]]. inversion Hin; subst.
    repeat split. exists [EvSetPrice (price v)]. reflexivity.
  - destruct Hin as [Hin|[]]. discriminate.
  - destruct Hin as [Hin|Hin]; [discriminate|].
    destruct (IH Hin) as (-> & (t0 & ->) & Hsl).
    split; [reflexivity|]. split.
    + exists (EvSetPrice s :: EvSave v0 (Ok false) :: EvPrint msg :: EvSleep d :: t0).
      reflexivity.
    + rewrite Hsl. rewrite saves_app. cbn. rewrite length_app. cbn.
      replace (List.length (saves t0) + 1 - 0)%nat
        with (S (List.length (saves t0) + 1 - 1)) by lia.
      reflexivity.
Qed.

(** Every delay is [d], and there are no more delays than saves. *)
Lemma loop_run_sleeps n res t :
  loop_run s d n res t ->
  sleeps t = repeat d (List.length (sleeps t))
  /\ (List.length (sleeps t) <= List.length (saves t))%nat.
Proof.
  induction 1 as [|n v Hv|n v e Hv|n v msg Hv Hneg|n v msg res t Hv _ Hrun [IH1 IH2]];
    cbn.
  - auto.
  - auto.
  - auto.
  - auto.
  - rewrite <- IH1. split; [reflexivity|lia].
Qed.

(** One successful save when the loop returns [True], none otherwise. *)
Lemma loop_run_successes n res t :
  loop_run s d n res t ->
  List.length (successful (saves t))
  = match res with Ok true => 1%nat | _ => 0%nat end.
Proof.
  induction 1 as [|n v Hv|n v e Hv|n v msg Hv Hneg|n v msg res t Hv _ Hrun IH];
    cbn; auto.
Qed.

(** Every save sends the price string. *)
Lemma loop_run_prices n res t :
  loop_run s d n res t ->
  forall v a, In (v, a) (saves t) -> price v = s.
Proof.
  induction 1 as [|n v0 Hv|n v0 e Hv|n v0 msg Hv Hneg|n v0 msg res t Hv _ Hrun IH];
    cbn; intros v a Hin.
  - contradiction.
  - destruct Hin as [Hin|[]]. congruence.
  - destruct Hin as [Hin|[]]. congruence.
  - destruct Hin as [Hin|[]]. congruence.
  - destruct Hin as [Hin|Hin]; [congruence|eauto].
Qed.

(** With a negative delay the loop does not get past a save that
    reports failure: it ends there with the error of the sleep, without
    a delay. *)
Lemma loop_run_negative n res t v :
  (d < 0)%Z ->
  loop_run s d n res t ->
  In (v, Ok false) (saves t) ->
  res = Raise (Exception "ValueError")
  /\ sleeps t = []
  /\ exists msg, t = [EvSetPrice s; EvSave v (Ok false); EvPrint msg].
Proof.
  intros Hd.
  induction 1 as [|n v0 Hv|n v0 e Hv|n v0 msg Hv Hneg|n v0 msg res t Hv Hpos Hrun IH];
    cbn; intros Hin.
  - contradiction.
  - destruct Hin as [Hin|[]]. discriminate.
  - destruct Hin as [Hin|[]]. discriminate.
  - destruct Hin as [Hin|[]]. inversion Hin; subst. repeat split. eauto.
  - lia.
Qed.
End LoopRunMore.

Section UpdaterMore.
Context {Value Remote : Type} {PV : PyValue Value} {SV : Services Value Remote}.

Local Abbreviation World := (World Value Remote).

(** X1.  An exception raised by a save is not retried: the call of
    [update_variant_price] ends with it, the raising save is the last
    event of the call, and the call slept only after the saves before
    it. *)
Theorem update_variant_price_save_raises (v : Variant) (p : Value) retries d
    (w : World) v' e :
  In (v', Raise e) (saves (trace_of (update_variant_price v p retries d w))) ->
  result_of (update_variant_price v p retries d w) = Raise e
  /\ (exists t0,
        trace_of (update_variant_price v p retries d w) = t0 ++ [EvSave v' (Raise e)])
  /\ sleeps (trace_of (update_variant_price v p retries d w))
     = repeat d (List.length (saves (trace_of (update_variant_price v p retries d w))) - 1).
Proof.
  destruct (update_variant_price v p retries d w) as [[res w'] t] eqn:E.
  cbn. intros Hin. apply update_variant_price_run in E.
  exact (loop_run_raised _ _ _ _ _ _ _ E Hin).
Qed.


(** X14.  With a negative delay, a call of [update_variant_price] whose
    save reports failure ends right there with the [ValueError] of
    [time.sleep]: one assignment, one save, the message, no delay and
    no second attempt. *)
Theorem update_variant_price_negative_delay (v : Variant) (p : Value) retries d
    (w : World) v' :
  (d < 0)%Z ->
  In (v', Ok false) (saves (trace_of (update_variant_price v p retries d w))) ->
  result_of (update_variant_price v p retries d w) = Raise (Exception "ValueError")
  /\ sleeps (trace_of (update_variant_price v p retries d w)) = []
  /\ exists msg,
       trace_of (update_variant_price v p retries d w)
       = [EvSetPrice (py_str p); EvSave v' (Ok false); EvPrint msg].
Proof.
  destruct (update_variant_price v p retries d w) as [[res w'] t] eqn:E.
  cbn. intros Hd Hin. apply update_variant_price_run in E.
  exact (loop_run_negative _ _ _ _ _ _ Hd E Hin).
Qed.

(** X3.  A call of [update_variant_price] touches the store only: the
    session and the files are as before, nothing is looked up, no outcome
    is recorded, no log is written.  Every delay is [delay] seconds,
    there are no more delays than saves and no more saves than
    [retries], and the price is assigned once per save. *)
Theorem update_variant_price_frame (v : Variant) (p : Value) retries d (w : World) :
  session (world_of (update_variant_price v p retries d w)) = session w
  /\ csv_files (world_of (update_variant_price v p retries d w)) = csv_files w
  /\ lookups (trace_of (update_variant_price v p retries d w)) = []
  /\ appended (trace_of (update_variant_price v p retries d w)) = []
  /\ written (trace_of (update_variant_price v p retries d w)) = []
  /\ sleeps (trace_of (update_variant_price v p retries d w))
     = repeat d (List.length (sleeps (trace_of (update_variant_price v p retries d w))))
  /\ (List.length (sleeps (trace_of (update_variant_price v p retries d w)))
      <= List.length (saves (trace_of (update_variant_price v p retries d w))))%nat
  /\ (List.length (saves (trace_of (update_variant_price v p retries d w)))
      <= Z.to_nat retries)%nat
  /\ assignments (trace_of (update_variant_price v p retries d w))
     = repeat (py_str p)
         (List.length (saves (trace_of (update_variant_price v p retries d w)))).
Proof.
  destruct (update_variant_price v p retries d w) as [[res w'] t] eqn:E.
  cbn. pose proof (update_variant_price_run _ _ _ _ _ _ _ _ E) as Hrun.
  unfold update_variant_price in E. apply attempts_loop_world in E.
  destruct E as [Hs Hc].
  destruct (loop_run_quiet _ _ _ _ _ Hrun) as (Hl & Ha & Hw).
  destruct (loop_run_sleeps _ _ _ _ _ Hrun) as [Hsl1 Hsl2].
  destruct (loop_run_bound _ _ _ _ _ Hrun) as [Hb1 Hb2].
  repeat split; assumption.
Qed.
End UpdaterMore.

(** * More on the loader *)

Section KeyOrder.
Context {Value : Type}.
Implicit Types (d : dict Value) (pairs : list (string * Value)).

Lemma filter_twice {A : Type} (f g : A -> bool) (l : list A) :
  filter f (filter g l) = filter (fun x => g x && f x) l.
Proof.
  induction l as [|a l IH]; cbn; [reflexivity|].
  destruct (g a); cbn; [destruct (f a)|]; rewrite IH; reflexivity.
Qed.

Lemma filter_all {A : Type} (f : A -> bool) (l : list A) :
  (forall a, f a = true) -> filter f l = l.
Proof.
  intros Hf. induction l as [|a l IH]; cbn; [reflexivity|]. now rewrite Hf, IH.
Qed.

Lemma filter_without (P : string -> bool) (x : string) (l : list string) :
  P x = false ->
  filter P (filter (fun y => negb (String.eqb x y)) l) = filter P l.
Proof.
  intros Hx. induction l as [|y l IH]; cbn; [reflexivity|].
  destruct (String.eqb x y) eqn:E; cbn.
  - apply String.eqb_eq in E. subst y. rewrite Hx. exact IH.
  - destruct (P y); rewrite IH; reflexivity.
Qed.

Lemma first_occurrences_filter (P : string -> bool) (l : list string) :
  first_occurrences (filter P l) = filter P (first_occurrences l).
Proof.
  induction l as [|x l IH]; cbn; [reflexivity|].
  destruct (P x) eqn:Hx; cbn.
  - rewrite IH, !filter_twice. f_equal. apply filter_ext.
    intros a. apply andb_comm.
  - rewrite IH. symmetry. now apply filter_without.
Qed.

Lemma first_occurrences_length (l : list string) :
  (List.length (first_occurrences l) <= List.length l)%nat.
Proof.
  induction l as [|x l IH]; cbn; [lia|].
  pose proof (filter_length_le (fun k' => negb (String.eqb x k')) (first_occurrences l)).
  lia.
Qed.

(** The keys after [d[k] = v]: a new key goes to the end. *)
Lemma dict_setitem_keys_eq k v d :
  map fst (dict_setitem k v d)
  = if existsb (String.eqb k) (map fst d) then map fst d else map fst d ++ [k].
Proof.
  induction d as [|[k' v'] d IH]; cbn; [reflexivity|].
  rewrite (String.eqb_sym k k').
  destruct (String.eqb k' k); cbn; [reflexivity|].
  rewrite IH. destruct (existsb (String.eqb k) (map fst d)); reflexivity.
Qed.

Lemma py_dict_keys_fold pairs : forall d,
  map fst (fold_left (fun d kv => dict_setitem (fst kv) (snd kv) d) pairs d)
  = map fst d
      ++ first_occurrences
           (filter (fun k => negb (existsb (String.eqb k) (map fst d))) (map fst pairs)).
Proof.
  induction pairs as [|[k v] pairs IH]; intros d; cbn [fold_left map fst snd].
  - cbn. now rewrite app_nil_r.
  - rewrite IH, dict_setitem_keys_eq. cbn [filter].
    destruct (existsb (String.eqb k) (map fst d)) eqn:Ek; cbn [negb].
    + reflexivity.
    + rewrite <- app_assoc. cbn [app first_occurrences]. do 2 f_equal.
      rewrite <- first_occurrences_filter, filter_twice. f_equal.
      apply filter_ext. intros a. rewrite existsb_app. cbn.
      rewrite orb_false_r, negb_orb, (String.eqb_sym a k). reflexivity.
Qed.

(** The keys of [dict(pairs)] are the keys of the pairs in the order
    of their first occurrence. *)
Lemma py_dict_keys pairs :
  map fst (py_dict pairs) = first_occurrences (map fst pairs).
Proof.
  unfold py_dict. rewrite py_dict_keys_fold. cbn.
  now rewrite filter_all by reflexivity.
Qed.

Lemma py_dict_length pairs :
  (List.length (py_dict pairs) <= List.length pairs)%nat.
Proof.
  rewrite <- (length_map fst (py_dict pairs)), py_dict_keys,
    <- (length_map fst pairs).
  apply first_occurrences_length.
Qed.

Lemma dict_setitem_fresh k v d :
  ~ In k (map fst d) -> dict_setitem k v d = d ++ [(k, v)].
Proof.
  induction d as [|[k' v'] d IH]; cbn; intros Hnotin; [reflexivity|].
  destruct (String.eqb k' k) eqn:E.
  - apply String.eqb_eq in E. subst k'. exfalso. auto.
  - rewrite IH by auto. reflexivity.
Qed.

Lemma py_dict_fold_distinct pairs : forall d,
  NoDup (map fst d ++ map fst pairs) ->
  fold_left (fun d kv => dict_setitem (fst kv) (snd kv) d) pairs d = d ++ pairs.
Proof.
  induction pairs as [|[k v] pairs IH]; intros d Hnd; cbn.
  - now rewrite app_nil_r.
  - cbn in Hnd. pose proof (NoDup_remove_2 _ _ _ Hnd) as Hnotin.
    rewrite dict_setitem_fresh by (intros Hin; apply Hnotin, in_or_app; auto).
    rewrite IH.
    + now rewrite <- app_assoc.
    + rewrite map_app. cbn. now rewrite <- app_assoc.
Qed.

(** Pairs with distinct keys make the dictionary that lists them. *)
Lemma py_dict_distinct pairs :
  NoDup (map fst pairs) -> py_dict pairs = pairs.
Proof. intros Hnd. unfold py_dict. now rewrite py_dict_fold_distinct. Qed.
End KeyOrder.

Section LoaderMore.
Context {Value Remote : Type} {PV : PyValue Value} {SV : Services Value Remote}.

Lemma df_getitem_raise (df : DataFrame Value) name e :
  df_getitem df name = Raise e -> e = Exception "KeyError".
Proof.
  induction df as [|[n col] df IH]; cbn.
  - intros E. now inversion E.
  - destruct (String.eqb n name); [discriminate|exact IH].
Qed.

(** X4.  [read_price_updates] fails only for a file that cannot be read
    or a missing column: the error of [pd.read_excel] is passed on; a
    frame without the SKU column or without the price column raises
    [KeyError]; a frame that has both columns always loads.  None of
    this touches the store or the files. *)
Theorem read_price_updates_errors (filename : string) (w : World Value Remote) :
  (forall e,
      pd_read_excel filename = Raise e ->
      read_price_updates filename w = (Raise e, w, [EvReadExcel filename]))
  /\ (forall df,
        pd_read_excel filename = Ok df ->
        (exists e, df_getitem df SKU_COLUMN = Raise e)
        \/ (exists e, df_getitem df PRICE_COLUMN = Raise e) ->
        read_price_updates filename w
        = (Raise (Exception "KeyError"), w, [EvReadExcel filename]))
  /\ (forall df skus prices,
        pd_read_excel filename = Ok df ->
        df_getitem df SKU_COLUMN = Ok skus ->
        df_getitem df PRICE_COLUMN = Ok prices ->
        exists updates,
          read_price_updates filename w = (Ok updates, w, [EvReadExcel filename])).
Proof.
  unfold read_price_updates, read_excel, bind, emit, lift.
  split; [|split].
  - intros e ->. reflexivity.
  - intros df -> Hmiss. cbn. unfold price_updates_of, dropna. cbn [df_columns].
    destruct (df_getitem df SKU_COLUMN) as [skus|e1] eqn:Es.
    + destruct Hmiss as [[e He]|[e He]]; [discriminate|].
      rewrite He. cbn. now rewrite (df_getitem_raise _ _ _ He).
    + cbn. now rewrite (df_getitem_raise _ _ _ Es).
  - intros df skus prices -> Hs Hp. cbn. unfold price_updates_of, dropna.
    cbn [df_columns]. rewrite Hs, Hp. cbn [result_bind].
    rewrite !df_getitem_select, Hs, Hp. cbn [result_bind]. eexists. reflexivity.
Qed.

(** X5.  The mapping that [read_price_updates] returns iterates over the
    identifiers in the order of their first occurrence among the rows
    that have both values (a later occurrence changes the price, not the
    place). *)
Theorem read_price_updates_order (w : World Value Remote)
    (df : DataFrame Value) skus prices :
  pd_read_excel EXCEL_FILE = Ok df ->
  well_formed df ->
  df_getitem df SKU_COLUMN = Ok skus ->
  df_getitem df PRICE_COLUMN = Ok prices ->
  exists updates,
    read_price_updates EXCEL_FILE w = (Ok updates, w, [EvReadExcel EXCEL_FILE])
    /\ map fst (dict_items updates)
       = first_occurrences
           (map fst (stringified (filter complete_row (combine skus prices)))).
Proof.
  intros Hr Hwf Hs Hp.
  exists (py_dict (stringified (filter complete_row (combine skus prices)))).
  split.
  - unfold read_price_updates, read_excel, bind, emit, lift. rewrite Hr.
    rewrite (price_updates_of_eq df skus prices Hwf Hs Hp). reflexivity.
  - apply py_dict_keys.
Qed.

(** X6.  The mapping has at most as many entries as there are rows with
    both values, and when the identifiers of those rows are distinct as
    strings it lists exactly those rows, in row order. *)
Theorem read_price_updates_distinct (w : World Value Remote)
    (df : DataFrame Value) skus prices :
  pd_read_excel EXCEL_FILE = Ok df ->
  well_formed df ->
  df_getitem df SKU_COLUMN = Ok skus ->
  df_getitem df PRICE_COLUMN = Ok prices ->
  exists updates,
    read_price_updates EXCEL_FILE w = (Ok updates, w, [EvReadExcel EXCEL_FILE])
    /\ (dict_len updates
        <= List.length (filter complete_row (combine skus prices)))%nat
    /\ (NoDup (map fst (stringified (filter complete_row (combine skus prices)))) ->
        dict_items updates
        = stringified (filter complete_row (combine skus prices))).
Proof.
  intros Hr Hwf Hs Hp.
  exists (py_dict (stringified (filter complete_row (combine skus prices)))).
  split; [|split].
  - unfold read_price_updates, read_excel, bind, emit, lift. rewrite Hr.
    rewrite (price_updates_of_eq df skus prices Hwf Hs Hp). reflexivity.
  - unfold dict_len.
    pose proof (py_dict_length
                  (stringified (filter complete_row (combine skus prices)))) as Hle.
    unfold stringified in Hle at 2. rewrite length_map in Hle. exact Hle.
  - intros Hnd. unfold dict_items. now apply py_dict_distinct.
Qed.
End LoaderMore.

(** * More on the rows and the run *)

Section RunMore.
Context {Value Remote : Type} {PV : PyValue Value} {SV : Services Value Remote}.

Local Abbreviation World := (World Value Remote).
Local Abbreviation outcome k p st := {| SKU := k; Price := p; Status := st |}.

Local Open Scope string_scope.

Lemma successful_app (l1 l2 : list (Variant * result bool)) :
  successful (l1 ++ l2)%list = (successful l1 ++ successful l2)%list.
Proof. apply filter_app. Qed.

Lemma updated_app (l1 l2 : list (LogEntry Value)) :
  updated (l1 ++ l2)%list = (updated l1 ++ updated l2)%list.
Proof. apply filter_app. Qed.

(** One row: delays and saves, successful saves and "Updated"
    outcomes, and the price every save sends. *)
Lemma loop_body_counts k (p : Value) log (w : World) res w' t :
  loop_body k p log w = (res, w', t) ->
  (List.length (sleeps t) <= List.length (saves t))%nat
  /\ sleeps t = repeat default_delay (List.length (sleeps t))
  /\ List.length (successful (saves t)) = List.length (updated (appended t))
  /\ (forall v a, In (v, a) (saves t) -> price v = py_str p).
Proof.
  rewrite loop_body_eq.
  destruct (Variant_find k (remote w)) as [[[|v vs]|e] r1].
  - intros E. inversion E; subst. cbn. repeat split; auto. intros v a [].
  - destruct (update_variant_price v p default_retries default_delay (set_remote r1 w))
      as [[r w2] t2] eqn:Eu.
    apply update_variant_price_run in Eu.
    destruct (loop_run_quiet _ _ _ _ _ Eu) as (_ & Ha & _).
    destruct (loop_run_sleeps _ _ _ _ _ Eu) as [Hsl1 Hsl2].
    pose proof (loop_run_successes _ _ _ _ _ Eu) as Hsu.
    pose proof (loop_run_prices _ _ _ _ _ Eu) as Hpr.
    destruct r as [[|]|e]; intros E; inversion E; subst; cbn;
      rewrite ?saves_app, ?sleeps_app, ?appended_app, ?Ha, ?app_nil_r; cbn;
      rewrite ?app_nil_r, <- ?Hsl1; repeat split; auto.
  - intros E. inversion E; subst. cbn. repeat split; auto. intros v a [].
Qed.

(** The rows together. *)
Lemma for_items_counts items : forall log (w : World) res w' t,
  for_items items log w = (res, w', t) ->
  (List.length (saves t) <= 3 * List.length (lookups t))%nat
  /\ (List.length (sleeps t) <= List.length (saves t))%nat
  /\ sleeps t = repeat default_delay (List.length (sleeps t))
  /\ List.length (successful (saves t)) = List.length (updated (appended t))
  /\ (forall v a, In (v, a) (saves t) ->
                  exists k p, In (k, p) items /\ price v = py_str p).
Proof.
  induction items as [|[k p] rest IH]; intros log w res w' t E.
  - cbn in E. unfold ret in E. inversion E; subst. cbn.
    split; [lia|]. split; [lia|]. split; [reflexivity|]. split; [reflexivity|].
    intros v a [].
  - rewrite for_items_cons in E. apply bind_inv in E.
    destruct E as [(e & Eb & ->)|(log1 & w1 & t1 & t2 & Eb & Er & ->)].
    + pose proof (loop_body_spec _ _ _ _ _ _ _ Eb) as (_ & _ & _ & Hl & Hb & _).
      apply loop_body_counts in Eb. destruct Eb as (H1 & H2 & H3 & H4).
      rewrite Hl. cbn.
      split; [lia|]. split; [exact H1|]. split; [exact H2|]. split; [exact H3|].
      intros v a Hin. exists k, p. split; [now left|eauto].
    + pose proof (loop_body_spec _ _ _ _ _ _ _ Eb) as (_ & _ & _ & Hl & Hb & _).
      apply loop_body_counts in Eb. destruct Eb as (H1 & H2 & H3 & H4).
      apply IH in Er. destruct Er as (I0 & I1 & I2 & I3 & I4).
      rewrite saves_app, sleeps_app, lookups_app, appended_app, successful_app,
        updated_app, !length_app, repeat_app, <- H2, <- I2, Hl.
      cbn.
      split; [lia|]. split; [lia|]. split; [reflexivity|]. split; [lia|].
      intros v a Hin. apply in_app_or in Hin. destruct Hin as [Hin|Hin].
      * exists k, p. split; [now left|eauto].
      * destruct (I4 v a Hin) as (k' & p' & Hin' & Hp'). exists k', p'.
        split; [now right|assumption].
Qed.

(** X7.  The session is cleared only at the end of a run that returns.
    Once session setup has succeeded, a run that ends with an error -
    of file loading or of a call to the store - leaves the session
    active; a run that returns leaves none. *)
Theorem main_session (w : World) :
  session_result = Ok tt ->
  (forall e, result_of (main w) = Raise e ->
             session (world_of (main w)) = Some (site_url, ACCESS_TOKEN))
  /\ (result_of (main w) = Ok tt -> session (world_of (main w)) = None).
Proof.
  intros Hs. rewrite main_eq, Hs.
  destruct load_result as [updates|e0]; [|cbn; split; [reflexivity|discriminate]].
  destruct (for_items (dict_items updates) [] (activated w)) as [[res w2] t] eqn:E.
  apply for_items_spec in E. destruct E as (Hse & _).
  destruct res as [log|e1]; cbn; split; auto; discriminate.
Qed.

(** Events without a lookup in front of a trace: their saves count
    towards the lookup before them. *)
Lemma saves_per_lookup_quiet (t1 t2 : list (event Value)) :
  lookups t1 = [] ->
  saves_until_find (t1 ++ t2)%list
  = (List.length (saves t1) + saves_until_find t2)%nat
  /\ saves_per_lookup (t1 ++ t2)%list = saves_per_lookup t2.
Proof.
  induction t1 as [|e t1 IH]; intros Hl; [auto|].
  destruct e; cbn in *; try discriminate; destruct (IH Hl) as [IH1 IH2]; auto.
Qed.

Lemma saves_per_lookup_length (t : list (event Value)) :
  List.length (saves_per_lookup t) = List.length (lookups t).
Proof.
  induction t as [|e t IH]; [reflexivity|]. destruct e; cbn; auto.
Qed.

(** A row starts with its message and its lookup, and makes at most
    three saves after it. *)
Lemma loop_body_shape k (p : Value) log (w : World) res w' t :
  loop_body k p log w = (res, w', t) ->
  exists msg r tail,
    t = EvPrint msg :: EvFind k r :: tail
    /\ lookups tail = [] /\ (List.length (saves tail) <= 3)%nat.
Proof.
  rewrite loop_body_eq.
  destruct (Variant_find k (remote w)) as [[[|v vs]|e] r1].
  - intros E. inversion E; subst. do 3 eexists. split; [reflexivity|]. cbn. auto.
  - destruct (update_variant_price v p default_retries default_delay (set_remote r1 w))
      as [[r w2] t2] eqn:Eu.
    apply update_variant_price_run in Eu.
    destruct (loop_run_quiet _ _ _ _ _ Eu) as (Hl & _ & _).
    destruct (loop_run_bound _ _ _ _ _ Eu) as [Hb _].
    change (Z.to_nat default_retries) with 3%nat in Hb.
    destruct r as [[|]|e]; intros E; inversion E; subst; do 3 eexists;
      (split; [reflexivity|]);
      rewrite ?lookups_app, ?saves_app, ?length_app, ?Hl; cbn; split; auto; lia.
  - intros E. inversion E; subst. do 3 eexists. split; [reflexivity|]. cbn. auto.
Qed.

(** The rows, followed by events without lookup or save: no save before
    the first lookup, and at most three after every lookup. *)
Lemma for_items_per_lookup items : forall log (w : World) res w' t suffix,
  for_items items log w = (res, w', t) ->
  lookups suffix = [] ->
  saves suffix = [] ->
  saves_until_find (t ++ suffix)%list = 0%nat
  /\ Forall (fun n => (n <= 3)%nat) (saves_per_lookup (t ++ suffix)%list).
Proof.
  induction items as [|[k p] rest IH]; intros log w res w' t suffix E Hl Hs.
  - cbn in E. unfold ret in E. inversion E; subst. cbn [app].
    destruct (saves_per_lookup_quiet suffix [] Hl) as [H1 H2].
    rewrite app_nil_r in H1, H2. rewrite H1, H2, Hs. cbn. auto.
  - rewrite for_items_cons in E. apply bind_inv in E.
    destruct E as [(e & Eb & ->)|(log1 & w1 & t1 & t2 & Eb & Er & ->)].
    + apply loop_body_shape in Eb.
      destruct Eb as (msg & r & tail & -> & Htl & Htb).
      destruct (saves_per_lookup_quiet tail suffix Htl) as [H1 H2].
      destruct (saves_per_lookup_quiet suffix [] Hl) as [H3 H4].
      rewrite app_nil_r in H3, H4.
      cbn. rewrite H1, H2, H3, H4, Hs. cbn.
      split; [reflexivity|]. constructor; [lia|constructor].
    + apply loop_body_shape in Eb.
      destruct Eb as (msg & r & tail & -> & Htl & Htb).
      destruct (IH _ _ _ _ _ suffix Er Hl Hs) as [I1 I2].
      destruct (saves_per_lookup_quiet tail (t2 ++ suffix)%list Htl) as [H1 H2].
      cbn. rewrite <- !app_assoc, H1, H2, I1.
      split; [reflexivity|]. constructor; [lia|exact I2].
Qed.

(** X8.  In every run that got past session setup and file loading: the
    identifiers looked up are the first identifiers of the mapping, in
    its order, each looked up once; no save comes before the first
    lookup and at most three saves follow each lookup before the next
    one; there are no more delays than saves; every delay is 2 seconds;
    and every save sends the price string of an entry of the mapping. *)
Theorem main_bounds (w : World) (updates : dict Value) :
  session_result = Ok tt ->
  load_result = Ok updates ->
  (exists rest,
      map fst (dict_items updates) = (lookups (trace_of (main w)) ++ rest)%list)
  /\ saves_until_find (trace_of (main w)) = 0%nat
  /\ Forall (fun n => (n <= 3)%nat) (saves_per_lookup (trace_of (main w)))
  /\ List.length (saves_per_lookup (trace_of (main w)))
     = List.length (lookups (trace_of (main w)))
  /\ (List.length (saves (trace_of (main w)))
      <= 3 * List.length (lookups (trace_of (main w))))%nat
  /\ (List.length (sleeps (trace_of (main w)))
      <= List.length (saves (trace_of (main w))))%nat
  /\ sleeps (trace_of (main w))
     = repeat 2%Z (List.length (sleeps (trace_of (main w))))
  /\ (forall v a, In (v, a) (saves (trace_of (main w))) ->
                  exists k p, In (k, p) (dict_items updates) /\ price v = py_str p).
Proof.
  intros Hs Hl.
  split; [|split; [|split; [|split; [apply saves_per_lookup_length|]]]];
    revert Hs Hl; rewrite main_eq; intros -> ->;
    destruct (for_items (dict_items updates) [] (activated w)) as [[res w2] t] eqn:E.
  - apply for_items_spec in E. destruct E as (_ & _ & _ & _ & Hres).
    destruct res as [log|e1]; cbn; rewrite ?lookups_app; cbn; rewrite ?app_nil_r.
    + destruct Hres as (_ & _ & _ & _ & Hlk). exists []. now rewrite app_nil_r.
    + destruct Hres as (_ & (before & k & p & after & Hit & _ & _ & Hlk) & _).
      exists (map fst after). rewrite Hlk, Hit, map_app, <- app_assoc. reflexivity.
  - destruct res as [log|e1]; cbn.
    + apply (for_items_per_lookup _ _ _ _ _ _ _ E); reflexivity.
    + destruct (for_items_per_lookup _ _ _ _ _ _ [] E eq_refl eq_refl) as [H1 _].
      now rewrite app_nil_r in H1.
  - destruct res as [log|e1]; cbn.
    + apply (for_items_per_lookup _ _ _ _ _ _ _ E); reflexivity.
    + destruct (for_items_per_lookup _ _ _ _ _ _ [] E eq_refl eq_refl) as [_ H2].
      now rewrite app_nil_r in H2.
  - pose proof (for_items_counts _ _ _ _ _ _ E) as (I0 & I1 & I2 & I3 & I4).
    change default_delay with 2%Z in I2.
    destruct res as [log|e1]; cbn;
      rewrite ?lookups_app, ?saves_app, ?sleeps_app; cbn; rewrite ?app_nil_r;
      (split; [exact I0|split; [exact I1|split; [exact I2|exact I4]]]).
Qed.

(** X9.  In every run, the outcomes recorded as "Updated" are as many
    as the saves that reported success. *)
Theorem main_updated_count (w : World) :
  List.length (updated (appended (trace_of (main w))))
  = List.length (successful (saves (trace_of (main w)))).
Proof.
  rewrite main_eq.
  destruct session_result as [[]|e0]; [|reflexivity].
  destruct load_result as [updates|e0]; [|reflexivity].
  destruct (for_items (dict_items updates) [] (activated w)) as [[res w2] t] eqn:E.
  pose proof (for_items_counts _ _ _ _ _ _ E) as (_ & _ & _ & I3 & _).
  destruct res as [log|e1]; cbn;
    rewrite ?appended_app, ?saves_app; cbn; rewrite ?app_nil_r; auto.
Qed.

(** X10.  When the lookup of a row returns matches, the row works on the
    first of them: its first save sends the first match with the price
    set to [str(new_price)], and every save of the row sends that price
    string. *)
Theorem loop_body_first_match k (p : Value) log (w : World) v vs r1 :
  Variant_find k (remote w) = (Ok (v :: vs), r1) ->
  (exists t',
      trace_of (loop_body k p log w)
      = EvPrint ("Processing SKU: " ++ k ++ " → " ++ py_str p)
          :: EvFind k (Ok (v :: vs))
          :: EvSetPrice (py_str p)
          :: EvSave (set_price (py_str p) v)
               (fst (fst (Variant_save (set_price (py_str p) v) r1)))
          :: t')
  /\ (forall v' a, In (v', a) (saves (trace_of (loop_body k p log w))) ->
                   price v' = py_str p).
Proof.
  intros Hf. split.
  - rewrite loop_body_eq, Hf.
    destruct (update_variant_price_first v p default_retries default_delay
                (set_remote r1 w)) as [t' Et]; [unfold default_retries; lia|].
    cbn [remote set_remote] in Et.
    destruct (update_variant_price v p default_retries default_delay (set_remote r1 w))
      as [[res w2] t].
    cbn in Et. subst t. destruct res as [[|]|e]; cbn; eexists; reflexivity.
  - destruct (loop_body k p log w) as [[res w'] t] eqn:E. cbn.
    apply loop_body_counts in E. tauto.
Qed.

(** A row whose lookup finds nothing. *)
Lemma loop_body_not_found k (p : Value) log (w : World) res w' t :
  loop_body k p log w = (res, w', t) ->
  (forall k' r, In (EvFind k' r) t -> r = Ok []) ->
  res = Ok (log ++ [outcome k p "SKU not found"])%list
  /\ saves t = [] /\ sleeps t = []
  /\ appended t = [outcome k p "SKU not found"].
Proof.
  rewrite loop_body_eq.
  destruct (Variant_find k (remote w)) as [[[|v vs]|e] r1].
  - intros E _. inversion E; subst. cbn. auto.
  - destruct (update_variant_price v p default_retries default_delay (set_remote r1 w))
      as [[[[|]|e] w2] t2]; intros E Hall; inversion E; subst;
      specialize (Hall k (Ok (v :: vs)) (or_intror (or_introl eq_refl)));
      discriminate.
  - intros E Hall. inversion E; subst.
    specialize (Hall k (Raise e) (or_intror (or_introl eq_refl))). discriminate.
Qed.

Lemma for_items_not_found items : forall log (w : World) res w' t,
  for_items items log w = (res, w', t) ->
  (forall k r, In (EvFind k r) t -> r = Ok []) ->
  res = Ok (log ++ map (fun kp => outcome (fst kp) (snd kp) "SKU not found") items)%list
  /\ saves t = [] /\ sleeps t = [].
Proof.
  induction items as [|[k p] rest IH]; intros log w res w' t E Hall.
  - cbn in E. unfold ret in E. inversion E; subst. cbn. now rewrite app_nil_r.
  - rewrite for_items_cons in E. apply bind_inv in E.
    destruct E as [(e & Eb & ->)|(log1 & w1 & t1 & t2 & Eb & Er & ->)].
    + destruct (loop_body_not_found _ _ _ _ _ _ _ Eb Hall) as (Hres & _). discriminate.
    + destruct (loop_body_not_found _ _ _ _ _ _ _ Eb) as (Hres & Hsa & Hsl & _).
      { intros k' r Hin. apply (Hall k' r), in_or_app. now left. }
      inversion Hres; subst log1.
      destruct (IH _ _ _ _ _ Er) as (-> & Hsa2 & Hsl2).
      { intros k' r Hin. apply (Hall k' r), in_or_app. now right. }
      rewrite saves_app, sleeps_app, Hsa, Hsl, Hsa2, Hsl2. cbn [map fst snd].
      now rewrite <- app_assoc.
Qed.

(** X11.  When no lookup of a run finds a variant, the run returns,
    saves nothing and sleeps never, and the log it writes holds
    "SKU not found" for every entry of the mapping, in its order. *)
Theorem main_nothing_found (w : World) (updates : dict Value) :
  session_result = Ok tt ->
  load_result = Ok updates ->
  (forall k r, In (EvFind k r) (trace_of (main w)) -> r = Ok []) ->
  result_of (main w) = Ok tt
  /\ saves (trace_of (main w)) = []
  /\ sleeps (trace_of (main w)) = []
  /\ written (trace_of (main w))
     = [(LOG_FILE,
         map (fun kp => outcome (fst kp) (snd kp) "SKU not found") (dict_items updates))].
Proof.
  intros Hs Hl. rewrite main_eq, Hs, Hl.
  destruct (for_items (dict_items updates) [] (activated w)) as [[res w2] t] eqn:E.
  pose proof (for_items_spec _ _ _ _ _ _ E) as (_ & _ & Hw & _).
  destruct res as [log|e1]; unfold trace_of, result_of; cbn [fst snd]; intros Hall.
  - destruct (for_items_not_found _ _ _ _ _ _ E) as (Hres & Hsa & Hsl).
    { intros k r Hin. apply (Hall k r). do 4 right. apply in_or_app. now left. }
    inversion Hres; subst log.
    cbn. rewrite saves_app, sleeps_app, written_app, Hsa, Hsl, Hw. cbn. auto.
  - destruct (for_items_not_found _ _ _ _ _ _ E) as (Hres & _).
    { intros k r Hin. apply (Hall k r). do 4 right. assumption. }
    discriminate.
Qed.

(** X13.  A sheet in which no row has both an identifier and a price
    gives a run that calls the store not at all, writes a log file with
    no row, clears the session and returns. *)
Theorem main_no_complete_row (w : World) (df : DataFrame Value) skus prices :
  session_result = Ok tt ->
  pd_read_excel EXCEL_FILE = Ok df ->
  well_formed df ->
  df_getitem df SKU_COLUMN = Ok skus ->
  df_getitem df PRICE_COLUMN = Ok prices ->
  filter complete_row (combine skus prices) = [] ->
  main w
  = (Ok tt, finished [] (activated w),
     [EvActivateSession site_url ACCESS_TOKEN;
      EvPrint "Connected to Shopify API.";
      EvReadExcel EXCEL_FILE;
      EvPrint "Loaded 0 price updates from Excel.";
      EvToCsv LOG_FILE [];
      EvPrint (String "010" "📄 Log file saved as: " ++ LOG_FILE);
      EvClearSession;
      EvPrint "Finished updating prices."]).
Proof.
  intros Hs Hr Hwf Hsk Hp Hnone.
  assert (Hl : load_result = Ok []).
  { unfold load_result. rewrite Hr. cbn [result_bind].
    rewrite (price_updates_of_eq df skus prices Hwf Hsk Hp), Hnone. reflexivity. }
  rewrite main_eq, Hs, Hl. reflexivity.
Qed.
End RunMore.

(** * The properties on concrete runs *)

Import Demo.

Local Open Scope string_scope.

(** C1 at [retries=3, delay=2] with a store that refuses every save:
    three save attempts, [False], and three delays of 2 seconds, the
    third one after the last attempt. *)
Lemma update_variant_price_all_fail_witness :
  (0 <= 2)%Z
  /\ (forall v' a, In (v', a) (saves (trace_of failing_run)) -> a = Ok false)
  /\ result_of failing_run = Ok false
  /\ List.length (saves (trace_of failing_run)) = 3%nat
  /\ sleeps (trace_of failing_run) = [2; 2; 2]%Z
  /\ exists t0 v' msg,
       trace_of failing_run = (t0 ++ [EvSave v' (Ok false); EvPrint msg; EvSleep 2])%list.
Proof.
  assert (Hall : forall v' a, In (v', a) (saves (trace_of failing_run)) -> a = Ok false).
  { vm_compute. intros v' a [E|[E|[E|[]]]]; inversion E; reflexivity. }
  assert (Hd : (0 <= 2)%Z) by lia.
  split; [exact Hd|]. split; [exact Hall|].
  destruct (update_variant_price_all_fail (SV := svc) widget (PInt 10) 3 2
              (world (store [Ok false; Ok false; Ok false] [])) Hd Hall)
    as (Hres & Hlen & Hsl & Hlast).
  split; [exact Hres|]. split; [exact Hlen|]. split; [exact Hsl|].
  apply Hlast. lia.
Defined.


(** C9 at [retries = 0] and at [retries = -1]. *)
Lemma update_variant_price_no_retries_witness :
  (0 <= 0)%Z
  /\ update_variant_price (SV := svc) widget (PInt 10) 0 2 (world (store [] []))
     = (Ok false, world (store [] []), [])
  /\ update_variant_price (SV := svc) widget (PInt 10) (-1) 2 (world (store [] []))
     = (Ok false, world (store [] []), []).
Proof.
  split; [lia|]. split.
  - apply (update_variant_price_no_retries (SV := svc)). lia.
  - apply (update_variant_price_no_retries (SV := svc)). lia.
Defined.

(** C10 at the second save of the failing run: the first save left the
    string "stale" in the object, and the second one sends "10". *)
Lemma update_variant_price_assigns_before_save_witness :
  trace_of failing_run
  = (firstn 5 (trace_of failing_run)
       ++ EvSave (set_price "10" widget) (Ok false) :: skipn 6 (trace_of failing_run))%list
  /\ price (set_price "10" widget) = py_str (PInt 10)
  /\ (exists t0, firstn 5 (trace_of failing_run)
                 = (t0 ++ [EvSetPrice (py_str (PInt 10))])%list)
  /\ (List.length (saves (trace_of failing_run)) <= Z.to_nat 3)%nat.
Proof.
  assert (E : trace_of failing_run
              = (firstn 5 (trace_of failing_run)
                   ++ EvSave (set_price "10" widget) (Ok false)
                   :: skipn 6 (trace_of failing_run))%list)
    by (vm_compute; reflexivity).
  split; [exact E|].
  exact (update_variant_price_assigns_before_save (SV := svc) widget (PInt 10) 3 2
           (world (store [Ok false; Ok false; Ok false] [])) _ _ _ _ E).
Defined.

(** C8 on a variant priced "10" and the new price 10: the price is
    assigned and the variant saved all the same. *)
Lemma update_variant_price_no_short_circuit_witness :
  price widget_priced = py_str (PInt 10) /\ (1 <= 3)%Z
  /\ result_of (update_variant_price (SV := svc) widget_priced (PInt 10) 3 2
                  (world (store [] []))) = Ok true
  /\ trace_of (update_variant_price (SV := svc) widget_priced (PInt 10) 3 2
                 (world (store [] [])))
     = [EvSetPrice (py_str (PInt 10)); EvSave widget_priced (Ok true)].
Proof.
  assert (Hp : price widget_priced = py_str (PInt 10)) by reflexivity.
  assert (Hr : (1 <= 3)%Z) by lia.
  split; [exact Hp|]. split; [exact Hr|].
  apply (proj1 (proj2 (update_variant_price_no_short_circuit (SV := svc)
                         widget_priced (PInt 10) 3 2 (world (store [] [])) Hp Hr))).
  reflexivity.
Defined.

(** C4 on three rows: Z is not in the store; A is saved at the second
    attempt; A is refused three times. *)
Lemma loop_body_status_witness :
  appended (trace_of (loop_body (SV := svc) "Z" (PInt 20) [] (world (store [] []))))
  = [{| SKU := "Z"; Price := PInt 20; Status := "SKU not found" |}]
  /\ appended (trace_of (loop_body (SV := svc) "A" (PInt 10) []
                           (world (store [Ok false; Ok true] []))))
     = [{| SKU := "A"; Price := PInt 10; Status := "Updated" |}]
  /\ appended (trace_of (loop_body (SV := svc) "A" (PInt 10) []
                           (world (store [Ok false; Ok false; Ok false] []))))
     = [{| SKU := "A"; Price := PInt 10; Status := "Failed to update" |}].
Proof.
  split; [|split].
  - apply (proj1 (loop_body_status (SV := svc) "Z" (PInt 20) [] (world (store [] [])))
             (store [] [])).
    reflexivity.
  - apply (proj1 (proj2 (loop_body_status (SV := svc) "A" (PInt 10) []
                           (world (store [Ok false; Ok true] []))))
             widget [] (store [Ok false; Ok true] []) (set_price "10" widget)).
    + reflexivity.
    + vm_compute. auto.
  - apply (proj1 (proj2 (proj2 (loop_body_status (SV := svc) "A" (PInt 10) []
                                  (world (store [Ok false; Ok false; Ok false] [])))))
             widget [] (store [Ok false; Ok false; Ok false] [])).
    + reflexivity.
    + vm_compute. intros v' a [E|[E|[E|[]]]]; inversion E; reflexivity.
Defined.

(** C3 on a run where the store answers every call: three entries
    loaded, three outcomes logged, in the order A, Z, B. *)
Lemma main_log_complete_witness :
  session_result (SV := svc) = Ok tt
  /\ load_result (SV := svc) = Ok [("A", PInt 10); ("Z", PInt 20); ("B", PInt 7)]
  /\ remote_errors (trace_of good_run) = []
  /\ exists log,
       result_of good_run = Ok tt
       /\ written (trace_of good_run) = [(LOG_FILE (SV := svc), log)]
       /\ csv_files (world_of good_run) = [(LOG_FILE (SV := svc), log)]
       /\ appended (trace_of good_run) = log
       /\ List.length log = 3%nat
       /\ map SKU log = ["A"; "Z"; "B"]
       /\ map Price log = [PInt 10; PInt 20; PInt 7].
Proof.
  assert (Hs : session_result (SV := svc) = Ok tt) by reflexivity.
  assert (Hl : load_result (SV := svc) = Ok [("A", PInt 10); ("Z", PInt 20); ("B", PInt 7)])
    by (vm_compute; reflexivity).
  assert (He : remote_errors (trace_of good_run) = []) by (vm_compute; reflexivity).
  split; [exact Hs|]. split; [exact Hl|]. split; [exact He|].
  exact (main_log_complete (SV := svc) (world (store [Ok false; Ok true] [])) _ Hs Hl He).
Defined.

(** C3 fails when a call to the store raises.  Three entries are loaded;
    the save of the third one raises; the run ends with that error, with
    two outcomes appended and no log file written. *)
Lemma main_log_incomplete_on_error :
  load_result (SV := svc) = Ok [("A", PInt 10); ("Z", PInt 20); ("B", PInt 7)]
  /\ result_of save_error_run = Raise connection_error
  /\ map SKU (appended (trace_of save_error_run)) = ["A"; "Z"]
  /\ written (trace_of save_error_run) = []
  /\ csv_files (world_of save_error_run) = [].
Proof. vm_compute. repeat split. Qed.

(** C2 on a run where the lookup of Z raises: the run ends with the
    error; A has its outcome, Z has none, B is never looked up, and no
    log file is written. *)
Lemma main_remote_error_aborts_witness :
  In connection_error (remote_errors (trace_of lookup_error_run))
  /\ result_of lookup_error_run = Raise connection_error
  /\ written (trace_of lookup_error_run) = []
  /\ csv_files (world_of lookup_error_run) = []
  /\ map SKU (appended (trace_of lookup_error_run)) = ["A"]
  /\ lookups (trace_of lookup_error_run) = ["A"; "Z"].
Proof.
  assert (Hin : In connection_error (remote_errors (trace_of lookup_error_run)))
    by (vm_compute; auto).
  pose proof (main_remote_error_aborts (SV := svc) (world (store [] ["Z"])) _ Hin)
    as (Hres & Hw & Hc & _ & _).
  split; [exact Hin|]. split; [exact Hres|]. split; [exact Hw|]. split; [exact Hc|].
  vm_compute. split; reflexivity.
Defined.

(** C2 fails: in that run the error of the lookup is not turned into an
    outcome for Z, and the run does not go on to B. *)
Lemma main_lookup_error_not_captured :
  result_of lookup_error_run = Raise connection_error
  /\ appended (trace_of lookup_error_run)
     = [{| SKU := "A"; Price := PInt 10; Status := "Updated" |}]
  /\ lookups (trace_of lookup_error_run) = ["A"; "Z"]
  /\ written (trace_of lookup_error_run) = [].
Proof. vm_compute. repeat split. Qed.

(** C7 on a run whose session cannot be set up, and on one whose file is
    missing. *)
Lemma main_fatal_error_witness :
  (session_result (SV := svc_no_session) = Raise (Exception "ValidationException")
   /\ main (SV := svc_no_session) (world (store [] []))
      = (Raise (Exception "ValidationException"), world (store [] []), []))
  /\ (session_result (SV := svc_no_file) = Ok tt
      /\ load_result (SV := svc_no_file) = Raise (Exception "FileNotFoundError")
      /\ result_of (main (SV := svc_no_file) (world (store [] [])))
         = Raise (Exception "FileNotFoundError")
      /\ remote (world_of (main (SV := svc_no_file) (world (store [] [])))) = store [] []
      /\ csv_files (world_of (main (SV := svc_no_file) (world (store [] [])))) = []
      /\ lookups (trace_of (main (SV := svc_no_file) (world (store [] [])))) = []
      /\ saves (trace_of (main (SV := svc_no_file) (world (store [] [])))) = []
      /\ appended (trace_of (main (SV := svc_no_file) (world (store [] [])))) = []
      /\ written (trace_of (main (SV := svc_no_file) (world (store [] [])))) = []
      /\ main (SV := svc_no_file) (world (store [] []))
         = (Raise (Exception "FileNotFoundError"),
            activated (world (store [] [])),
            [EvActivateSession site_url ACCESS_TOKEN;
             EvPrint "Connected to Shopify API."; EvReadExcel EXCEL_FILE])).
Proof.
  split.
  - assert (Hs : session_result (SV := svc_no_session)
                 = Raise (Exception "ValidationException")) by reflexivity.
    split; [exact Hs|].
    apply (main_fatal_error (SV := svc_no_session) (world (store [] [])) _ (or_introl Hs)).
    exact Hs.
  - assert (Hs : session_result (SV := svc_no_file) = Ok tt) by reflexivity.
    assert (Hl : load_result (SV := svc_no_file) = Raise (Exception "FileNotFoundError"))
      by reflexivity.
    split; [exact Hs|]. split; [exact Hl|].
    pose proof (main_fatal_error (SV := svc_no_file) (world (store [] [])) _
                  (or_intror (conj Hs Hl)))
      as (H1 & H2 & H3 & H4 & H5 & H6 & H7 & _ & H9).
    split; [exact H1|]. split; [exact H2|]. split; [exact H3|]. split; [exact H4|].
    split; [exact H5|]. split; [exact H6|]. split; [exact H7|]. exact (H9 Hs Hl).
Defined.

(** C7 fails in its last clause when the file is missing: the run
    starts with no session and ends with the session active, and it has
    printed its first message. *)
Lemma main_load_failure_changes_state :
  load_result (SV := svc_no_file) = Raise (Exception "FileNotFoundError")
  /\ session (world (store [] [])) = None
  /\ session (world_of (main (SV := svc_no_file) (world (store [] []))))
     = Some (site_url, ACCESS_TOKEN)
  /\ trace_of (main (SV := svc_no_file) (world (store [] [])))
     = [EvActivateSession site_url ACCESS_TOKEN;
        EvPrint "Connected to Shopify API."; EvReadExcel EXCEL_FILE].
Proof. vm_compute. repeat split. Qed.

(** The values of the example reader behave as the properties need. *)
Lemma demo_reader_keeps_missing : reader_keeps_missing (Value := pyval).
Proof.
  split; [reflexivity|]. split; [reflexivity|].
  intros col. cbn. destruct (float_column col); [|reflexivity].
  rewrite map_map. apply map_ext. intros [|z|z|s]; reflexivity.
Defined.

(** C5 on the rows of the loader example, [A, 10], ["", 20] and
    [B, null]: only the first is kept, and [A -> 10.0] is loaded. *)
Lemma read_price_updates_complete_rows_witness :
  reader_keeps_missing (Value := pyval)
  /\ pd_read_excel (Services := svc_spec) EXCEL_FILE = Ok (read_frame raw_spec)
  /\ rectangular raw_spec
  /\ sheet_column raw_spec SKU_COLUMN = Some [Text "A"; Text ""; Text "B"]
  /\ sheet_column raw_spec PRICE_COLUMN = Some [Other (PInt 10); Other (PInt 20); Blank]
  /\ exists updates,
       read_price_updates (SV := svc_spec) EXCEL_FILE (world (store [] []))
       = (Ok updates, world (store [] []), [EvReadExcel EXCEL_FILE])
       /\ updates = [("A", PFloat 10)]
       /\ map complete_row
            (combine (read_column [Text "A"; Text ""; Text "B"])
                     (read_column [Other (PInt 10); Other (PInt 20); Blank]))
          = [true; false; false].
Proof.
  assert (Hr : pd_read_excel (Services := svc_spec) EXCEL_FILE = Ok (read_frame raw_spec))
    by reflexivity.
  assert (Hrect : rectangular raw_spec).
  { intros n col [E|[E|[]]]; inversion E; reflexivity. }
  assert (Hs : sheet_column raw_spec SKU_COLUMN = Some [Text "A"; Text ""; Text "B"])
    by reflexivity.
  assert (Hp : sheet_column raw_spec PRICE_COLUMN
               = Some [Other (PInt 10); Other (PInt 20); Blank]) by reflexivity.
  split; [exact demo_reader_keeps_missing|].
  split; [exact Hr|]. split; [exact Hrect|]. split; [exact Hs|]. split; [exact Hp|].
  destruct (read_price_updates_complete_rows (SV := svc_spec) (world (store [] []))
              raw_spec _ _ demo_reader_keeps_missing Hr Hrect Hs Hp)
    as (updates & Hrun & Hupd & Hmask & _).
  exists updates. split; [exact Hrun|]. split.
  - rewrite Hupd. reflexivity.
  - rewrite Hmask. reflexivity.
Defined.

(** C5 fails on the rows [A, 10] and [A, null]: the last occurrence of
    A in the input has no price, and the mapping holds the price of the
    occurrence before it. *)
Lemma read_price_updates_not_last_in_input :
  read_price_updates (SV := svc_dup) EXCEL_FILE (world (store [] []))
  = (Ok [("A", PFloat 10)], world (store [] []), [EvReadExcel EXCEL_FILE])
  /\ dict_get "A" [("A", PFloat 10)] = Some (PFloat 10)
  /\ last_value "A"
       (stringified (combine (read_column [Text "A"; Text "A"])
                             (read_column [Other (PInt 10); Blank])))
     = Some PNaN.
Proof. vm_compute. repeat split. Qed.

(** Two rows with the same identifier and a price each load to one
    entry, with the price of the second row: the mapping, and so the
    log, can be shorter than the rows that have both values. *)
Lemma price_updates_of_twice :
  price_updates_of sheet_twice = Ok [("A", PInt 12)]
  /\ List.length (filter complete_row (combine [PStr "A"; PStr "A"] [PInt 10; PInt 12]))
     = 2%nat.
Proof. vm_compute. split; reflexivity. Qed.

(** X1 on a call whose second save raises: the call ends with the
    error after one delay. *)
Lemma update_variant_price_save_raises_witness :
  In (widget_priced, Raise connection_error) (saves (trace_of raising_run))
  /\ result_of raising_run = Raise connection_error
  /\ (exists t0, trace_of raising_run
                 = (t0 ++ [EvSave widget_priced (Raise connection_error)])%list)
  /\ sleeps (trace_of raising_run) = [2%Z].
Proof.
  assert (Hin : In (widget_priced, Raise connection_error) (saves (trace_of raising_run)))
    by (vm_compute; auto).
  split; [exact Hin|].
  exact (update_variant_price_save_raises (SV := svc) widget (PInt 10) 3 2
           (world (store [Ok false; Raise connection_error] [])) _ _ Hin).
Defined.

(** X4 on a sheet without the price column. *)
Lemma read_price_updates_errors_witness :
  pd_read_excel (Services := svc_no_price) EXCEL_FILE = Ok sheet_no_price
  /\ df_getitem sheet_no_price PRICE_COLUMN = Raise (Exception "KeyError")
  /\ read_price_updates (SV := svc_no_price) EXCEL_FILE (world (store [] []))
     = (Raise (Exception "KeyError"), world (store [] []), [EvReadExcel EXCEL_FILE]).
Proof.
  assert (Hr : pd_read_excel (Services := svc_no_price) EXCEL_FILE = Ok sheet_no_price)
    by reflexivity.
  assert (Hp : df_getitem sheet_no_price PRICE_COLUMN = Raise (Exception "KeyError"))
    by reflexivity.
  split; [exact Hr|]. split; [exact Hp|].
  apply (proj1 (proj2 (read_price_updates_errors (SV := svc_no_price) EXCEL_FILE
                         (world (store [] [])))) sheet_no_price Hr).
  right. exists (Exception "KeyError"). exact Hp.
Defined.

(** X5 on the rows B, A, B: the mapping iterates over B, then A. *)
Lemma read_price_updates_order_witness :
  pd_read_excel (Services := svc_order) EXCEL_FILE = Ok sheet_order
  /\ well_formed sheet_order
  /\ df_getitem sheet_order SKU_COLUMN = Ok [PStr "B"; PStr "A"; PStr "B"]
  /\ df_getitem sheet_order PRICE_COLUMN = Ok [PInt 1; PInt 2; PInt 3]
  /\ exists updates,
       read_price_updates (SV := svc_order) EXCEL_FILE (world (store [] []))
       = (Ok updates, world (store [] []), [EvReadExcel EXCEL_FILE])
       /\ map fst (dict_items updates) = ["B"; "A"].
Proof.
  assert (Hr : pd_read_excel (Services := svc_order) EXCEL_FILE = Ok sheet_order)
    by reflexivity.
  assert (Hwf : well_formed sheet_order).
  { intros n col [E|[E|[]]]; inversion E; reflexivity. }
  assert (Hs : df_getitem sheet_order SKU_COLUMN = Ok [PStr "B"; PStr "A"; PStr "B"])
    by reflexivity.
  assert (Hp : df_getitem sheet_order PRICE_COLUMN = Ok [PInt 1; PInt 2; PInt 3])
    by reflexivity.
  split; [exact Hr|]. split; [exact Hwf|]. split; [exact Hs|]. split; [exact Hp|].
  destruct (read_price_updates_order (SV := svc_order) (world (store [] []))
              sheet_order _ _ Hr Hwf Hs Hp) as (updates & Hrun & Hkeys).
  exists updates. split; [exact Hrun|]. rewrite Hkeys. reflexivity.
Defined.

(** X6 on the rows A, Z, B, whose identifiers are distinct. *)
Lemma read_price_updates_distinct_witness :
  pd_read_excel (Services := svc) EXCEL_FILE = Ok sheet_three
  /\ well_formed sheet_three
  /\ df_getitem sheet_three SKU_COLUMN = Ok [PStr "A"; PStr "Z"; PStr "B"]
  /\ df_getitem sheet_three PRICE_COLUMN = Ok [PInt 10; PInt 20; PInt 7]
  /\ NoDup ["A"; "Z"; "B"]
  /\ exists updates,
       read_price_updates (SV := svc) EXCEL_FILE (world (store [] []))
       = (Ok updates, world (store [] []), [EvReadExcel EXCEL_FILE])
       /\ (dict_len updates <= 3)%nat
       /\ dict_items updates = [("A", PInt 10); ("Z", PInt 20); ("B", PInt 7)].
Proof.
  assert (Hr : pd_read_excel (Services := svc) EXCEL_FILE = Ok sheet_three)
    by reflexivity.
  assert (Hwf : well_formed sheet_three).
  { intros n col [E|[E|[]]]; inversion E; reflexivity. }
  assert (Hs : df_getitem sheet_three SKU_COLUMN = Ok [PStr "A"; PStr "Z"; PStr "B"])
    by reflexivity.
  assert (Hp : df_getitem sheet_three PRICE_COLUMN = Ok [PInt 10; PInt 20; PInt 7])
    by reflexivity.
  assert (Hnd : NoDup ["A"; "Z"; "B"]).
  { constructor; [cbn; intros [E|[E|[]]]; discriminate|].
    constructor; [cbn; intros [E|[]]; discriminate|].
    constructor; [intros []|constructor]. }
  split; [exact Hr|]. split; [exact Hwf|]. split; [exact Hs|]. split; [exact Hp|].
  split; [exact Hnd|].
  destruct (read_price_updates_distinct (SV := svc) (world (store [] []))
              sheet_three _ _ Hr Hwf Hs Hp) as (updates & Hrun & Hlen & Hitems).
  exists updates. split; [exact Hrun|]. split; [exact Hlen|]. exact (Hitems Hnd).
Defined.

(** X7 on the run where the lookup of Z raises and on the run that
    returns. *)
Lemma main_session_witness :
  session_result (SV := svc) = Ok tt
  /\ result_of lookup_error_run = Raise connection_error
  /\ session (world_of lookup_error_run) = Some (site_url, ACCESS_TOKEN)
  /\ result_of good_run = Ok tt
  /\ session (world_of good_run) = None.
Proof.
  assert (Hs : session_result (SV := svc) = Ok tt) by reflexivity.
  assert (He : result_of lookup_error_run = Raise connection_error)
    by (vm_compute; reflexivity).
  assert (Hg : result_of good_run = Ok tt) by (vm_compute; reflexivity).
  split; [exact Hs|]. split; [exact He|]. split.
  - exact (proj1 (main_session (SV := svc) (world (store [] ["Z"])) Hs) _ He).
  - split; [exact Hg|].
    exact (proj2 (main_session (SV := svc) (world (store [Ok false; Ok true] [])) Hs) Hg).
Defined.

(** X8 on the run that returns: three lookups, with two saves, none
    and one after them, and one delay. *)
Lemma main_bounds_witness :
  session_result (SV := svc) = Ok tt
  /\ load_result (SV := svc) = Ok [("A", PInt 10); ("Z", PInt 20); ("B", PInt 7)]
  /\ lookups (trace_of good_run) = ["A"; "Z"; "B"]
  /\ saves_per_lookup (trace_of good_run) = [2; 0; 1]%nat
  /\ saves_until_find (trace_of good_run) = 0%nat
  /\ Forall (fun n => (n <= 3)%nat) (saves_per_lookup (trace_of good_run))
  /\ (List.length (saves (trace_of good_run))
      <= 3 * List.length (lookups (trace_of good_run)))%nat
  /\ (List.length (sleeps (trace_of good_run))
      <= List.length (saves (trace_of good_run)))%nat
  /\ sleeps (trace_of good_run) = repeat 2%Z (List.length (sleeps (trace_of good_run))).
Proof.
  assert (Hs : session_result (SV := svc) = Ok tt) by reflexivity.
  assert (Hl : load_result (SV := svc) = Ok [("A", PInt 10); ("Z", PInt 20); ("B", PInt 7)])
    by (vm_compute; reflexivity).
  destruct (main_bounds (SV := svc) (world (store [Ok false; Ok true] [])) _ Hs Hl)
    as (_ & Hfirst & Hper & _ & Hsa & Hsl & Hd & _).
  split; [exact Hs|]. split; [exact Hl|]. split; [vm_compute; reflexivity|].
  split; [vm_compute; reflexivity|].
  split; [exact Hfirst|]. split; [exact Hper|].
  split; [exact Hsa|]. split; [exact Hsl|]. exact Hd.
Defined.

(** X10 on the row of A, which the store holds once. *)
Lemma loop_body_first_match_witness :
  Variant_find (Services := svc) "A" (store [Ok false; Ok true] [])
  = (Ok [widget], store [Ok false; Ok true] [])
  /\ (exists t',
        trace_of (loop_body (SV := svc) "A" (PInt 10) []
                    (world (store [Ok false; Ok true] [])))
        = EvPrint ("Processing SKU: A → 10")
            :: EvFind "A" (Ok [widget])
            :: EvSetPrice "10"
            :: EvSave widget_priced (Ok false)
            :: t')
  /\ (forall v' a,
        In (v', a) (saves (trace_of (loop_body (SV := svc) "A" (PInt 10) []
                                       (world (store [Ok false; Ok true] []))))) ->
        price v' = "10").
Proof.
  assert (Hf : Variant_find (Services := svc) "A" (store [Ok false; Ok true] [])
               = (Ok [widget], store [Ok false; Ok true] [])) by reflexivity.
  split; [exact Hf|].
  exact (loop_body_first_match (SV := svc) "A" (PInt 10) []
           (world (store [Ok false; Ok true] [])) widget [] _ Hf).
Defined.

(** X11 on a sheet of two identifiers that the store does not hold. *)
Lemma main_nothing_found_witness :
  session_result (SV := svc_unknown) = Ok tt
  /\ load_result (SV := svc_unknown) = Ok [("Y", PInt 1); ("Z", PInt 2)]
  /\ (forall k r, In (EvFind k r) (trace_of unknown_run) -> r = Ok [])
  /\ result_of unknown_run = Ok tt
  /\ saves (trace_of unknown_run) = []
  /\ sleeps (trace_of unknown_run) = []
  /\ written (trace_of unknown_run)
     = [(LOG_FILE (SV := svc_unknown),
         [{| SKU := "Y"; Price := PInt 1; Status := "SKU not found" |};
          {| SKU := "Z"; Price := PInt 2; Status := "SKU not found" |}])].
Proof.
  assert (Hs : session_result (SV := svc_unknown) = Ok tt) by reflexivity.
  assert (Hl : load_result (SV := svc_unknown) = Ok [("Y", PInt 1); ("Z", PInt 2)])
    by (vm_compute; reflexivity).
  assert (Hall : forall k r, In (EvFind k r) (trace_of unknown_run) -> r = Ok []).
  { intros k r Hin. vm_compute in Hin.
    repeat (destruct Hin as [Hin|Hin];
            [try discriminate; inversion Hin; reflexivity|]).
    destruct Hin. }
  split; [exact Hs|]. split; [exact Hl|]. split; [exact Hall|].
  exact (main_nothing_found (SV := svc_unknown) (world (store [] [])) _ Hs Hl Hall).
Defined.

(** X13 on a sheet whose two rows each miss one of the two values. *)
Lemma main_no_complete_row_witness :
  session_result (SV := svc_blank) = Ok tt
  /\ pd_read_excel (Services := svc_blank) EXCEL_FILE = Ok sheet_blank
  /\ well_formed sheet_blank
  /\ df_getitem sheet_blank SKU_COLUMN = Ok [PStr "A"; PNaN]
  /\ df_getitem sheet_blank PRICE_COLUMN = Ok [PNaN; PFloat 20]
  /\ filter complete_row (combine [PStr "A"; PNaN] [PNaN; PFloat 20]) = []
  /\ result_of (main (SV := svc_blank) (world (store [] []))) = Ok tt
  /\ lookups (trace_of (main (SV := svc_blank) (world (store [] [])))) = []
  /\ written (trace_of (main (SV := svc_blank) (world (store [] []))))
     = [(LOG_FILE (SV := svc_blank), [])].
Proof.
  assert (Hs : session_result (SV := svc_blank) = Ok tt) by reflexivity.
  assert (Hr : pd_read_excel (Services := svc_blank) EXCEL_FILE = Ok sheet_blank)
    by reflexivity.
  assert (Hwf : well_formed sheet_blank).
  { intros n col [E|[E|[]]]; inversion E; reflexivity. }
  assert (Hsk : df_getitem sheet_blank SKU_COLUMN = Ok [PStr "A"; PNaN]) by reflexivity.
  assert (Hp : df_getitem sheet_blank PRICE_COLUMN = Ok [PNaN; PFloat 20]) by reflexivity.
  assert (Hnone : filter complete_row (combine [PStr "A"; PNaN] [PNaN; PFloat 20]) = [])
    by reflexivity.
  split; [exact Hs|]. split; [exact Hr|]. split; [exact Hwf|]. split; [exact Hsk|].
  split; [exact Hp|]. split; [exact Hnone|].
  rewrite (main_no_complete_row (SV := svc_blank) (world (store [] []))
             sheet_blank _ _ Hs Hr Hwf Hsk Hp Hnone).
  repeat split.
Defined.


(** X14 on a call with the delay -1 whose first save fails: the store
    would accept the second save, and the call does not get there. *)
Lemma update_variant_price_negative_delay_witness :
  (-1 < 0)%Z
  /\ In (widget_priced, Ok false)
        (saves (trace_of (update_variant_price (SV := svc) widget (PInt 10) 3 (-1)
                            (world (store [Ok false; Ok true] [])))))
  /\ result_of (update_variant_price (SV := svc) widget (PInt 10) 3 (-1)
                  (world (store [Ok false; Ok true] [])))
     = Raise (Exception "ValueError")
  /\ List.length (saves (trace_of (update_variant_price (SV := svc) widget (PInt 10) 3 (-1)
                                     (world (store [Ok false; Ok true] []))))) = 1%nat.
Proof.
  assert (Hd : (-1 < 0)%Z) by lia.
  assert (Hin : In (widget_priced, Ok false)
                  (saves (trace_of (update_variant_price (SV := svc) widget (PInt 10) 3 (-1)
                                      (world (store [Ok false; Ok true] []))))))
    by (vm_compute; auto).
  split; [exact Hd|]. split; [exact Hin|].
  destruct (update_variant_price_negative_delay (SV := svc) widget (PInt 10) 3 (-1)
              (world (store [Ok false; Ok true] [])) _ Hd Hin) as (Hres & _ & msg & Ht).
  split; [exact Hres|]. rewrite Ht. reflexivity.
Defined.
